(** * climbing-map: terrain pipeline scripts and tile server

    A shallow embedding of [scripts/process_terrain.py],
    [scripts/process_laz.py], [scripts/download_bc_lidar.py] and
    [server.py].

    The scripts are orchestration code: they probe the host for
    executables, create directories, scan them, and shell out to external
    tools (docker, pdal, gdalwarp, gdal_merge.py, ctb-tile).  They are
    embedded as programs of a small monad [M] that threads the file system,
    records every observable action in an event log and carries Python
    exceptions (including [SystemExit]).  The host is an [Env]: what
    [shutil.which] finds, what every external command does to the file
    system and which status it returns, what [Path.resolve] answers.  All
    theorems quantify over the [Env] and the initial file system.

    What the embedding leaves out: the text of banners and progress lines
    written by [print] (only the messages that report an outcome are kept,
    as constructors of [Msg]); the captured stdout and stderr of the tools
    (they are only printed); OS faults that no file-system state explains
    (permissions, full disk). *)

From stdpp Require Import gmap strings list fin_maps pretty.
From Stdlib Require Import ZArith Ascii.

Open Scope string_scope.
Open Scope Z_scope.
Open Scope list_scope.
Open Scope stdpp_scope.

(* ===================================================================== *)
(** * The Python runtime the scripts rely on *)
(* ===================================================================== *)

Module Py.

(** ** [str] methods *)

(** [s.endswith(suf)] *)
Definition endswith (s suf : string) : bool :=
  let n := String.length s in
  let m := String.length suf in
  if (m <=? n)%nat then String.eqb (String.substring (n - m) m s) suf else false.

(** [s.startswith(pre)] *)
Definition startswith (s pre : string) : bool := String.prefix pre s.

(** [sep.join(l)] *)
Fixpoint join (sep : string) (l : list string) : string :=
  match l with
  | [] => ""
  | [x] => x
  | x :: r => x +:+ sep +:+ join sep r
  end.

(** ** [pathlib.Path] (POSIX flavour)

    A path is the list of its [parts]; an absolute path starts with its
    anchor (["/"], or ["//"] for exactly two leading slashes).  The empty
    list is [Path('.')]. *)

Abbreviation Path := (list string).

Definition is_anchor (c : string) : bool := startswith c "/".

(** [str(p)] *)
Definition str (p : Path) : string :=
  match p with
  | [] => "."
  | a :: r => if is_anchor a then a +:+ join "/" r else join "/" p
  end.

(** [p.name] *)
Definition name (p : Path) : string :=
  match last p with
  | Some c => if is_anchor c then "" else c
  | None => ""
  end.

(** [p.parent] *)
Definition parent (p : Path) : Path :=
  match p with
  | [a] => if is_anchor a then [a] else []
  | _ => removelast p
  end.

(** [p / child], for a [child] that is a single file name (every right
    operand of [/] in the scripts is a literal without a slash). *)
Definition joinpath (p : Path) (child : string) : Path := p ++ [child].

Notation "p </> c" := (joinpath p c) (at level 40, left associativity).

(** Splitting a string at every slash. *)
Fixpoint split_slash (s : string) (cur : string) : list string :=
  match s with
  | EmptyString => [cur]
  | String c r =>
      if Ascii.eqb c "/"%char then cur :: split_slash r ""
      else split_slash r (cur +:+ String c EmptyString)
  end.

(** [Path(s)]: empty components and ["."] components are dropped. *)
Definition Path_of_string (s : string) : Path :=
  let comps :=
    filter (λ c, c ≠ "" ∧ c ≠ ".") (split_slash s "") in
  let anchor :=
    if startswith s "//" && negb (startswith s "///") then ["//"]
    else if startswith s "/" then ["/"]
    else [] in
  anchor ++ comps.

(** ** The file system *)

(** A JSON document, as far as the scripts build one (the PDAL pipeline);
    a float is kept by its literal. *)
#[warnings="-register-all"] Inductive Json :=
| JStr (s : string)
| JFloat (literal : string)
| JArr (items : list Json)
| JObj (fields : list (string * Json)).

Inductive FileData :=
| Blob (size : N)      (* a file of that many bytes *)
| Doc (j : Json).      (* a file written by [json.dump] *)

Inductive Node :=
| Dir
| File (data : FileData).

Abbreviation FS := (gmap Path Node).

(** The current directory and the root always exist. *)
Definition is_root (p : Path) : bool :=
  match p with
  | [] => true
  | [a] => is_anchor a
  | _ => false
  end.

Definition lookup_path (fs : FS) (p : Path) : option Node :=
  if is_root p then Some Dir else fs !! p.

(** [p.exists()], [p.is_dir()], [p.is_file()] *)
Definition exists_ (fs : FS) (p : Path) : bool :=
  match lookup_path fs p with Some _ => true | None => false end.

Definition is_dir (fs : FS) (p : Path) : bool :=
  match lookup_path fs p with Some Dir => true | _ => false end.

Definition is_file (fs : FS) (p : Path) : bool :=
  match lookup_path fs p with Some (File _) => true | _ => false end.

(** The entries of [fs] at or below [d]: the contents of a directory. *)
Definition contents (d : Path) (fs : FS) : FS :=
  filter (λ kv, d `prefix_of` kv.1) fs.

(** [fnmatch] for the patterns the scripts use: ["*"] followed by a
    literal suffix, or a literal. *)
Definition fnmatch (pattern name : string) : bool :=
  match pattern with
  | String "*"%char suf => endswith name suf
  | _ => String.eqb pattern name
  end.

Definition is_child (d p : Path) : bool :=
  bool_decide (d `prefix_of` p ∧ length p = S (length d)).

Definition is_below (d p : Path) : bool :=
  bool_decide (d `prefix_of` p ∧ p ≠ d).

(** [d.iterdir()], [d.glob(pattern)], [d.rglob(pattern)], in the order
    the file system lists its entries. *)
Definition iterdir (fs : FS) (d : Path) : list Path :=
  filter (λ p, is_child d p = true) (map_to_list fs).*1.

Definition glob (fs : FS) (d : Path) (pattern : string) : list Path :=
  filter (λ p, fnmatch pattern (name p) = true) (iterdir fs d).

Definition rglob (fs : FS) (d : Path) (pattern : string) : list Path :=
  filter (λ p, is_below d p = true ∧ fnmatch pattern (name p) = true)
         (map_to_list fs).*1.

(** [p.mkdir(parents=True, exist_ok=True)]: every missing ancestor is
    created; a regular file in the way makes it fail. *)
Fixpoint mkdir_from (done : Path) (todo : list string) (fs : FS) : option FS :=
  match todo with
  | [] => Some fs
  | c :: r =>
      let p := done ++ [c] in
      match lookup_path fs p with
      | Some Dir => mkdir_from p r fs
      | Some (File _) => None
      | None => mkdir_from p r (<[p := Dir]> fs)
      end
  end.

Definition mkdir_parents (p : Path) (fs : FS) : option FS := mkdir_from [] p fs.

(** [os.rename(src, dst)]: the tree at [src] replaces whatever is at [dst]. *)
Definition rename (src dst : Path) (fs : FS) : FS :=
  let moved : FS :=
    kmap (λ k, dst ++ drop (length src) k)
         (filter (λ kv, src `prefix_of` kv.1) fs) in
  let kept : FS :=
    filter (λ kv, ¬ src `prefix_of` kv.1 ∧ ¬ dst `prefix_of` kv.1) fs in
  moved ∪ kept.

(** ** Exceptions *)

Inductive PyExc :=
| SystemExit (code : Z)
| CalledProcessError (returncode : Z)
| FileNotFoundError
| OSError
| IndexError
| ShutilError.

(** [except Exception] does not catch [SystemExit]. *)
Definition is_Exception (e : PyExc) : bool :=
  match e with SystemExit _ => false | _ => true end.

(** ** What a run can be observed to do *)

Inductive Msg :=
| MsgDependencies (report : list (string * bool))
| MsgMissingTools
| MsgNoInputFound (d : Path)
| MsgFoundInputs (files : list (string * N))
| MsgFound (p : Path)
| MsgFileNotFound (p : Path)
| MsgFileInfo (file : string) (size : N)
| MsgToolFailed (rc : Z)
| MsgTilesCreated
| MsgCtbTileMissing
| MsgLayerJsonExists
| MsgZoomLevelDirs (n : nat)
| MsgTerrainTiles (n : nat)
| MsgTotalSize (bytes : N)
| MsgSuccess
| MsgLayerJsonMissing
| MsgProcessingFailed (e : PyExc)
| MsgError (e : PyExc)
| MsgFailedConvert
| MsgDemCreated (p : Path)
| MsgFailedReproject
| MsgReprojected (p : Path)
| MsgNoGdal
| MsgTilesWarning.

Inductive Event :=
| EvRun (cmd : list string) (rc : Z)        (* a subprocess ran and exited *)
| EvSpawnFail (cmd : list string)           (* its executable was not found *)
| EvScan (d : Path) (pattern : string) (recursive : bool)
| EvMkdir (p : Path)
| EvWrite (p : Path) (j : Json)
| EvMove (src dst : Path)
| EvPrint (m : Msg).

(** ** The host *)

Record Env := {
  (** [shutil.which(prog) is not None] *)
  which : string → bool;
  (** what an external command does: exit status and file system after *)
  exec : list string → FS → Z * FS;
  (** [Path.resolve] *)
  resolve : Path → Path;
  (** [__file__] of the running script *)
  script_file : Path;
  (** [st_size] of a directory and of a dumped JSON document *)
  dir_size : N;
  json_size : Json → N;
}.

Definition st_size (env : Env) (fs : FS) (p : Path) : N :=
  match lookup_path fs p with
  | Some (File (Blob n)) => n
  | Some (File (Doc j)) => json_size env j
  | Some Dir => dir_size env
  | None => 0%N
  end.

(** ** The monad of script code *)

Inductive Result (A : Type) :=
| Ok (a : A)
| Raised (e : PyExc).
Arguments Ok {A} a.
Arguments Raised {A} e.

Record Out (A : Type) := mkOut {
  res : Result A;
  fs_after : FS;
  events : list Event;
}.
Arguments mkOut {A} _ _ _.
Arguments res {A} _.
Arguments fs_after {A} _.
Arguments events {A} _.

Definition M (A : Type) : Type := FS → Out A.

Definition ret {A} (a : A) : M A := λ fs, mkOut (Ok a) fs [].

Definition bind {A B} (m : M A) (k : A → M B) : M B := λ fs,
  let o := m fs in
  match res o with
  | Ok a =>
      let o' := k a (fs_after o) in
      mkOut (res o') (fs_after o') (events o ++ events o')
  | Raised e => mkOut (Raised e) (fs_after o) (events o)
  end.

Definition raise {A} (e : PyExc) : M A := λ fs, mkOut (Raised e) fs [].

Declare Scope py_scope.
Delimit Scope py_scope with py.
Notation "x ← y ; z" := (bind y (λ x : _, z))
  (at level 20, y at level 100, z at level 200, only parsing) : py_scope.
Notation "x ;; z" := (bind x (λ _, z))
  (at level 100, z at level 200, only parsing, right associativity) : py_scope.
Open Scope py_scope.

(** [try: body  except ...: handler]; [handler e = None] when no clause
    matches [e]. *)
Definition try_except {A} (body : M A) (handler : PyExc → option (M A)) : M A :=
  λ fs,
  let o := body fs in
  match res o with
  | Ok a => o
  | Raised e =>
      match handler e with
      | Some h =>
          let o' := h (fs_after o) in
          mkOut (res o') (fs_after o') (events o ++ events o')
      | None => o
      end
  end.

(** [sys.exit(code)] *)
Definition sys_exit {A} (code : Z) : M A := raise (SystemExit code).

Definition emit (e : Event) : M unit := λ fs, mkOut (Ok tt) fs [e].

Definition print (m : Msg) : M unit := emit (EvPrint m).

Definition read {A} (f : FS → A) : M A := λ fs, mkOut (Ok (f fs)) fs [].

(** The exit status of the interpreter after the script's [main]: 0 when
    it returns, the code of [sys.exit], 1 after an uncaught exception. *)
Definition status_of {A} (r : Result A) : Z :=
  match r with
  | Ok _ => 0
  | Raised (SystemExit code) => code
  | Raised _ => 1
  end.

Definition exit_status {A} (o : Out A) : Z := status_of (res o).

Section Effects.
Variable env : Env.

(** [subprocess.run(cmd)]: the executable is looked up like
    [shutil.which] does; when it is missing, [FileNotFoundError]. *)
Definition subprocess_run (cmd : list string) : M Z := λ fs,
  match cmd with
  | prog :: _ =>
      if which env prog then
        let '(rc, fs') := exec env cmd fs in
        mkOut (Ok rc) fs' [EvRun cmd rc]
      else mkOut (Raised FileNotFoundError) fs [EvSpawnFail cmd]
  | [] => mkOut (Raised IndexError) fs []
  end.

(** [subprocess.run(cmd, check=True)] *)
Definition subprocess_run_check (cmd : list string) : M unit :=
  rc ← subprocess_run cmd;
  if rc =? 0 then ret tt else raise (CalledProcessError rc).

Definition mkdir (p : Path) : M unit := λ fs,
  match mkdir_parents p fs with
  | Some fs' => mkOut (Ok tt) fs' [EvMkdir p]
  | None => mkOut (Raised OSError) fs []
  end.

Definition path_exists (p : Path) : M bool := read (λ fs, exists_ fs p).

Definition path_glob (d : Path) (pattern : string) : M (list Path) := λ fs,
  mkOut (Ok (glob fs d pattern)) fs [EvScan d pattern false].

Definition path_rglob (d : Path) (pattern : string) : M (list Path) := λ fs,
  mkOut (Ok (rglob fs d pattern)) fs [EvScan d pattern true].

Definition path_iterdir (d : Path) : M (list Path) := λ fs,
  mkOut (Ok (iterdir fs d)) fs [EvScan d "*" false].

(** [with open(p, 'w') as f: json.dump(j, f)] *)
Definition write_json (p : Path) (j : Json) : M unit := λ fs,
  if is_dir fs (parent p) && negb (is_dir fs p) then
    mkOut (Ok tt) (<[p := File (Doc j)]> fs) [EvWrite p j]
  else mkOut (Raised OSError) fs [].

(** [shutil.move(src, dst)] *)
Definition shutil_move (src dst : Path) : M unit := λ fs,
  if bool_decide (src = dst) then mkOut (Ok tt) fs [EvMove src dst]
  else if is_dir fs dst then
    let real_dst := dst </> name src in
    if exists_ fs real_dst then mkOut (Raised ShutilError) fs []
    else mkOut (Ok tt) (rename src real_dst fs) [EvMove src real_dst]
  else mkOut (Ok tt) (rename src dst fs) [EvMove src dst].

(** The module-level directory constants, shared by both scripts. *)
Definition SCRIPT_DIR : Path := parent (script_file env).
Definition PROJECT_DIR : Path := parent SCRIPT_DIR.
Definition RAW_DATA_DIR : Path := PROJECT_DIR </> "data" </> "raw".
Definition PROCESSED_DIR : Path := PROJECT_DIR </> "data" </> "processed".
Definition OUTPUT_DIR : Path := PROJECT_DIR </> "terrain-tiles".
End Effects.

End Py.

(* ===================================================================== *)
(** * scripts/process_terrain.py *)
(* ===================================================================== *)

Module Terrain.
Import Py.
Open Scope py_scope.

Section Script.
Variable env : Env.

Abbreviation RAW_DATA_DIR := (Py.RAW_DATA_DIR env).
Abbreviation PROCESSED_DIR := (Py.PROCESSED_DIR env).
Abbreviation OUTPUT_DIR := (Py.OUTPUT_DIR env).

(** [check_dependencies]: [None] stands for the [False] it returns when
    the tools are insufficient, [Some] for the (truthy) triple. *)
Definition check_dependencies : M (option (bool * bool * bool)) :=
  let docker_available := which env "docker" in
  let gdal_available := which env "gdalwarp" in
  let ctb_available := which env "ctb-tile" in
  print (MsgDependencies [("Docker", docker_available);
                          ("GDAL", gdal_available);
                          ("ctb-tile", ctb_available)]);;
  if negb docker_available && negb (gdal_available && ctb_available) then
    print MsgMissingTools;;
    ret None
  else
    ret (Some (docker_available, gdal_available, ctb_available)).

Definition find_input_files : M (list Path) :=
  mkdir RAW_DATA_DIR;;
  tif ← path_glob RAW_DATA_DIR "*.tif";
  tiff ← path_glob RAW_DATA_DIR "*.tiff";
  let tif_files := tif ++ tiff in
  match tif_files with
  | [] =>
      print (MsgNoInputFound RAW_DATA_DIR);;
      ret []
  | _ =>
      sizes ← read (λ fs, map (λ f, (name f, st_size env fs f)) tif_files);
      print (MsgFoundInputs sizes);;
      ret tif_files
  end.

(** The argument lists, in the order the script builds them. *)
Definition docker_merge_cmd (input_files : list Path) : list string :=
  [ "docker"; "run"; "--rm";
    "-v"; str RAW_DATA_DIR +:+ ":/data/input";
    "-v"; str PROCESSED_DIR +:+ ":/data/output";
    "osgeo/gdal:latest";
    "gdal_merge.py"; "-o"; "/data/output/merged.tif" ]
  ++ map (λ f, "/data/input/" +:+ name f) input_files.

Definition docker_warp_cmd (input_file : Path) : list string :=
  [ "docker"; "run"; "--rm";
    "-v"; str (parent input_file) +:+ ":/data/input";
    "-v"; str PROCESSED_DIR +:+ ":/data/output";
    "osgeo/gdal:latest";
    "gdalwarp";
    "-t_srs"; "EPSG:4326";
    "-r"; "bilinear";
    "-of"; "GTiff";
    "/data/input/" +:+ name input_file;
    "/data/output/wgs84.tif" ].

Definition docker_tile_cmd : list string :=
  [ "docker"; "run"; "--rm";
    "-v"; str PROCESSED_DIR +:+ ":/data/input";
    "-v"; str OUTPUT_DIR +:+ ":/data/output";
    "tumgis/ctb-quantized-mesh";
    "ctb-tile";
    "-f"; "Mesh";
    "-C";
    "-N";
    "-o"; "/data/output";
    "/data/input/wgs84.tif" ].

Definition docker_layer_cmd : list string :=
  [ "docker"; "run"; "--rm";
    "-v"; str PROCESSED_DIR +:+ ":/data/input";
    "-v"; str OUTPUT_DIR +:+ ":/data/output";
    "tumgis/ctb-quantized-mesh";
    "ctb-tile";
    "-f"; "Mesh";
    "-l";
    "-o"; "/data/output";
    "/data/input/wgs84.tif" ].

(** [input_files[0]] *)
Definition first_of (input_files : list Path) : M Path :=
  match input_files with
  | f :: _ => ret f
  | [] => raise IndexError
  end.

Definition process_with_docker (input_files : list Path) : M unit :=
  mkdir PROCESSED_DIR;;
  mkdir OUTPUT_DIR;;
  (* Merge files if multiple *)
  input_file ←
    (if (1 <? length input_files)%nat then
       let merged_file := PROCESSED_DIR </> "merged.tif" in
       subprocess_run_check env (docker_merge_cmd input_files);;
       ret merged_file
     else first_of input_files);
  (* Reproject to WGS84 *)
  subprocess_run_check env (docker_warp_cmd input_file);;
  (* Create terrain tiles *)
  subprocess_run_check env docker_tile_cmd;;
  (* Create layer.json *)
  subprocess_run_check env docker_layer_cmd;;
  print MsgTilesCreated.

Definition local_merge_cmd (input_files : list Path) : list string :=
  [ "gdal_merge.py"; "-o"; str (PROCESSED_DIR </> "merged.tif") ]
  ++ map str input_files.

Definition local_warp_cmd (input_file : Path) : list string :=
  [ "gdalwarp";
    "-t_srs"; "EPSG:4326";
    "-r"; "bilinear";
    "-of"; "GTiff";
    str input_file;
    str (PROCESSED_DIR </> "wgs84.tif") ].

Definition local_tile_cmd : list string :=
  [ "ctb-tile";
    "-f"; "Mesh";
    "-C";
    "-N";
    "-o"; str OUTPUT_DIR;
    str (PROCESSED_DIR </> "wgs84.tif") ].

Definition local_layer_cmd : list string :=
  [ "ctb-tile";
    "-f"; "Mesh";
    "-l";
    "-o"; str OUTPUT_DIR;
    str (PROCESSED_DIR </> "wgs84.tif") ].

Definition process_with_local_tools
    (input_files : list Path) (gdal_available ctb_available : bool) : M unit :=
  mkdir PROCESSED_DIR;;
  mkdir OUTPUT_DIR;;
  (* Merge files if multiple *)
  input_file ←
    (if (1 <? length input_files)%nat then
       let merged_file := PROCESSED_DIR </> "merged.tif" in
       subprocess_run_check env (local_merge_cmd input_files);;
       ret merged_file
     else first_of input_files);
  (* Reproject to WGS84 *)
  subprocess_run_check env (local_warp_cmd input_file);;
  if ctb_available then
    subprocess_run_check env local_tile_cmd;;
    subprocess_run_check env local_layer_cmd;;
    print MsgTilesCreated
  else
    print MsgCtbTileMissing.

Definition verify_output : M bool :=
  let layer_json := OUTPUT_DIR </> "layer.json" in
  found ← path_exists layer_json;
  if found then
    print MsgLayerJsonExists;;
    (* Count tile directories *)
    entries ← path_iterdir OUTPUT_DIR;
    tile_dirs ← read (λ fs, filter (λ d, is_dir fs d = true) entries);
    print (MsgZoomLevelDirs (length tile_dirs));;
    (* Check for terrain files *)
    terrain_files ← path_rglob OUTPUT_DIR "*.terrain";
    print (MsgTerrainTiles (length terrain_files));;
    (* Calculate total size *)
    everything ← path_rglob OUTPUT_DIR "*";
    total_size ← read (λ fs,
      foldr N.add 0%N
        (map (st_size env fs) (filter (λ f, is_file fs f = true) everything)));
    print (MsgTotalSize total_size);;
    print MsgSuccess;;
    ret true
  else
    print MsgLayerJsonMissing;;
    ret false.

(** [main], with [argv] standing for [sys.argv]. *)
Definition main (argv : list string) : M unit :=
  (* Check dependencies *)
  deps ← check_dependencies;
  match deps with
  | None => sys_exit 1
  | Some (docker_available, gdal_available, ctb_available) =>
      (* Handle command line argument *)
      input_files ←
        (if (1 <? length argv)%nat then
           let input_path := Path_of_string (default "" (argv !! 1%nat)) in
           found ← path_exists input_path;
           if found then ret [input_path]
           else
             print (MsgFileNotFound input_path);;
             sys_exit 1
         else find_input_files);
      match input_files with
      | [] => sys_exit 1
      | _ =>
          (* Process based on available tools *)
          try_except
            ((if docker_available then process_with_docker input_files
              else process_with_local_tools input_files
                     gdal_available ctb_available);;
             verify_output;;
             ret tt)
            (λ e : PyExc,
               match e with
               | CalledProcessError _ =>
                   Some (print (MsgProcessingFailed e);; sys_exit 1)
               | SystemExit _ => None
               | _ => Some (print (MsgError e);; sys_exit 1)
               end)
      end
  end.

End Script.
End Terrain.

(* ===================================================================== *)
(** * scripts/process_laz.py *)
(* ===================================================================== *)

Module Laz.
Import Py.
Open Scope py_scope.

(** The [deps] dictionary of [check_dependencies]. *)
Record Deps := mkDeps { docker : bool; pdal : bool; gdal : bool }.

Section Script.
Variable env : Env.

Abbreviation RAW_DATA_DIR := (Py.RAW_DATA_DIR env).
Abbreviation PROCESSED_DIR := (Py.PROCESSED_DIR env).
Abbreviation OUTPUT_DIR := (Py.OUTPUT_DIR env).

Definition check_dependencies : M Deps :=
  let docker := which env "docker" in
  let pdal := which env "pdal" in
  let gdal := which env "gdalwarp" in
  print (MsgDependencies [("Docker", docker); ("PDAL", pdal); ("GDAL", gdal)]);;
  ret (mkDeps docker pdal gdal).

(** The PDAL pipeline description: read, drop noise (class 7), grid by
    inverse distance weighting at 1 m with a 2 m radius, float32 GeoTIFF. *)
Definition pdal_pipeline (reader_filename writer_filename : string) : Json :=
  JObj [("pipeline", JArr [
    JObj [("type", JStr "readers.las");
          ("filename", JStr reader_filename)];
    JObj [("type", JStr "filters.range");
          ("limits", JStr "Classification![7:7]")];
    JObj [("type", JStr "writers.gdal");
          ("filename", JStr writer_filename);
          ("output_type", JStr "idw");
          ("resolution", JFloat "1.0");
          ("radius", JFloat "2.0");
          ("gdaldriver", JStr "GTiff");
          ("data_type", JStr "float32")]])].

Definition docker_pipeline_cmd (laz_path output_path pipeline_file : Path)
  : list string :=
  [ "docker"; "run"; "--rm";
    "-v"; str (parent laz_path) +:+ ":/data/input_dir";
    "-v"; str (parent output_path) +:+ ":/data";
    "-v"; str (parent pipeline_file) +:+ ":/data/config";
    "pdal/pdal:latest";
    "pdal"; "pipeline"; "/data/config/pipeline.json";
    "--readers.las.filename=/data/input_dir/" +:+ name laz_path;
    "--writers.gdal.filename=/data/output.tif" ].

Definition docker_translate_cmd (laz_path output_path : Path) : list string :=
  [ "docker"; "run"; "--rm";
    "-v"; str (parent laz_path) +:+ ":/input";
    "-v"; str (parent output_path) +:+ ":/output";
    "pdal/pdal:latest";
    "pdal"; "translate";
    "/input/" +:+ name laz_path;
    "/output/dem.tif";
    "--writers.gdal.resolution=1.0";
    "--writers.gdal.output_type=idw" ].

Definition convert_laz_simple_docker (laz_file output_tif : Path) : M bool :=
  let laz_path := resolve env laz_file in
  let output_path := resolve env output_tif in
  rc ← subprocess_run env (docker_translate_cmd laz_path output_path);
  (if negb (rc =? 0) then print (MsgToolFailed rc) else ret tt);;
  let temp_output := parent output_path </> "dem.tif" in
  found ← path_exists temp_output;
  if found then
    shutil_move temp_output output_path;;
    ret true
  else ret false.

Definition convert_laz_to_dem_docker (laz_file output_tif : Path) : M bool :=
  let laz_path := resolve env laz_file in
  let output_path := resolve env output_tif in
  mkdir (parent output_path);;
  (* PDAL pipeline for LAZ to raster *)
  let pipeline := pdal_pipeline "/data/input.laz" "/data/output.tif" in
  (* Write pipeline to temp file *)
  let pipeline_file := PROCESSED_DIR </> "pipeline.json" in
  mkdir (parent pipeline_file);;
  write_json pipeline_file pipeline;;
  (* Run PDAL in Docker *)
  rc ← subprocess_run env
         (docker_pipeline_cmd laz_path output_path pipeline_file);
  if negb (rc =? 0) then
    print (MsgToolFailed rc);;
    (* Try alternative method *)
    convert_laz_simple_docker laz_file output_tif
  else
    (* Rename output *)
    let temp_output := parent output_path </> "output.tif" in
    found ← path_exists temp_output;
    (if found then shutil_move temp_output output_path else ret tt);;
    path_exists output_path.

Definition local_pipeline_cmd (pipeline_file : Path) : list string :=
  [ "pdal"; "pipeline"; str pipeline_file ].

Definition convert_laz_to_dem_pdal (laz_file output_tif : Path) : M bool :=
  let output_path := output_tif in
  mkdir (parent output_path);;
  let pipeline := pdal_pipeline (str laz_file) (str output_tif) in
  let pipeline_file := PROCESSED_DIR </> "pipeline.json" in
  write_json pipeline_file pipeline;;
  rc ← subprocess_run env (local_pipeline_cmd pipeline_file);
  if negb (rc =? 0) then
    print (MsgToolFailed rc);;
    ret false
  else path_exists output_path.

Definition docker_warp_cmd (input_path : Path) : list string :=
  [ "docker"; "run"; "--rm";
    "-v"; str (parent input_path) +:+ ":/data";
    "osgeo/gdal:latest";
    "gdalwarp";
    "-t_srs"; "EPSG:4326";
    "-r"; "bilinear";
    "-of"; "GTiff";
    "-co"; "COMPRESS=LZW";
    "/data/" +:+ name input_path;
    "/data/wgs84.tif" ].

Definition local_warp_cmd (input_tif output_tif : Path) : list string :=
  [ "gdalwarp";
    "-t_srs"; "EPSG:4326";
    "-r"; "bilinear";
    "-of"; "GTiff";
    "-co"; "COMPRESS=LZW";
    str input_tif;
    str output_tif ].

(** The second half of [reproject_to_wgs84], reached when Docker is
    missing or left no [wgs84.tif]. *)
Definition reproject_local (input_tif output_tif : Path) : M bool :=
  let output_path := output_tif in
  if which env "gdalwarp" then
    subprocess_run env (local_warp_cmd input_tif output_tif);;
    path_exists output_path
  else
    print MsgNoGdal;;
    ret false.

Definition reproject_to_wgs84 (input_tif output_tif : Path) : M bool :=
  let output_path := output_tif in
  (* Try Docker first *)
  if which env "docker" then
    let input_path := resolve env input_tif in
    subprocess_run env (docker_warp_cmd input_path);;
    let temp_output := parent input_path </> "wgs84.tif" in
    found ← path_exists temp_output;
    if found then
      shutil_move temp_output output_path;;
      ret true
    else
      (* Try local GDAL *)
      reproject_local input_tif output_tif
  else
    reproject_local input_tif output_tif.

Definition docker_tile_cmd (dem_path : Path) : list string :=
  [ "docker"; "run"; "--rm";
    "-v"; str (parent dem_path) +:+ ":/data/input";
    "-v"; str OUTPUT_DIR +:+ ":/data/output";
    "tumgis/ctb-quantized-mesh";
    "ctb-tile";
    "-f"; "Mesh";
    "-C";
    "-N";
    "-o"; "/data/output";
    "/data/input/" +:+ name dem_path ].

Definition docker_layer_cmd (dem_path : Path) : list string :=
  [ "docker"; "run"; "--rm";
    "-v"; str (parent dem_path) +:+ ":/data/input";
    "-v"; str OUTPUT_DIR +:+ ":/data/output";
    "tumgis/ctb-quantized-mesh";
    "ctb-tile";
    "-f"; "Mesh";
    "-l";
    "-o"; "/data/output";
    "/data/input/" +:+ name dem_path ].

Definition create_terrain_tiles (dem_tif : Path) : M bool :=
  let dem_path := resolve env dem_tif in
  mkdir OUTPUT_DIR;;
  (* Use Docker with CTB *)
  rc ← subprocess_run env (docker_tile_cmd dem_path);
  (if negb (rc =? 0) then print (MsgToolFailed rc) else ret tt);;
  (* Create layer.json *)
  subprocess_run env (docker_layer_cmd dem_path);;
  path_exists (OUTPUT_DIR </> "layer.json").

Definition local_info_cmd (filepath : Path) : list string :=
  [ "pdal"; "info"; "--summary"; str filepath ].

Definition docker_info_cmd (filepath : Path) : list string :=
  [ "docker"; "run"; "--rm";
    "-v"; str (parent filepath) +:+ ":/data";
    "pdal/pdal:latest";
    "pdal"; "info"; "--summary"; "/data/" +:+ name filepath ].

(** [filepath.stat()] raises when the file is gone. *)
Definition stat_size (filepath : Path) : M N := λ fs,
  if exists_ fs filepath then mkOut (Ok (st_size env fs filepath)) fs []
  else mkOut (Raised FileNotFoundError) fs [].

Definition get_file_info (filepath : Path) : M unit :=
  size ← stat_size filepath;
  print (MsgFileInfo (name filepath) size);;
  (* Try to get more info with PDAL *)
  if which env "pdal" then
    subprocess_run env (local_info_cmd filepath);;
    ret tt
  else if which env "docker" then
    subprocess_run env (docker_info_cmd filepath);;
    ret tt
  else ret tt.

(** [main], with [argv] standing for [sys.argv]. *)
Definition main (argv : list string) : M unit :=
  (* Check for input file *)
  laz_file ←
    (if (length argv <? 2)%nat then
       (* Look for LAZ files in data/raw *)
       mkdir RAW_DATA_DIR;;
       laz ← path_glob RAW_DATA_DIR "*.laz";
       las ← path_glob RAW_DATA_DIR "*.las";
       let laz_files := laz ++ las in
       match laz_files with
       | [] =>
           print (MsgNoInputFound RAW_DATA_DIR);;
           sys_exit 1
       | laz_file :: _ =>
           print (MsgFound laz_file);;
           ret laz_file
       end
     else
       let laz_file := Path_of_string (default "" (argv !! 1%nat)) in
       found ← path_exists laz_file;
       if negb found then
         print (MsgFileNotFound laz_file);;
         sys_exit 1
       else ret laz_file);
  (* Check dependencies *)
  deps ← check_dependencies;
  (if negb (docker deps) && negb (pdal deps) then
     print MsgMissingTools;;
     sys_exit 1
   else ret tt);;
  (* Get file info *)
  get_file_info laz_file;;
  (* Create directories *)
  mkdir PROCESSED_DIR;;
  (* Step 1: Convert LAZ to DEM *)
  let dem_file := PROCESSED_DIR </> "dem.tif" in
  success ←
    (if docker deps then convert_laz_to_dem_docker laz_file dem_file
     else if pdal deps then convert_laz_to_dem_pdal laz_file dem_file
     else ret false);
  dem_found ← path_exists dem_file;
  (if negb success || negb dem_found then
     print MsgFailedConvert;;
     sys_exit 1
   else ret tt);;
  print (MsgDemCreated dem_file);;
  (* Step 2: Reproject to WGS84 *)
  let wgs84_file := PROCESSED_DIR </> "wgs84.tif" in
  reprojected ← reproject_to_wgs84 dem_file wgs84_file;
  (if negb reprojected then
     print MsgFailedReproject;;
     sys_exit 1
   else ret tt);;
  print (MsgReprojected wgs84_file);;
  (* Step 3: Create terrain tiles *)
  tiled ← create_terrain_tiles wgs84_file;
  (if negb tiled then print MsgTilesWarning else ret tt);;
  (* Verify output *)
  let layer_json := OUTPUT_DIR </> "layer.json" in
  found ← path_exists layer_json;
  if found then
    print MsgLayerJsonExists;;
    terrain_files ← path_rglob OUTPUT_DIR "*.terrain";
    print (MsgTerrainTiles (length terrain_files));;
    everything ← path_rglob OUTPUT_DIR "*";
    total_size ← read (λ fs,
      foldr N.add 0%N
        (map (st_size env fs) (filter (λ f, is_file fs f = true) everything)));
    print (MsgTotalSize total_size);;
    print MsgSuccess
  else
    print MsgLayerJsonMissing.

End Script.
End Laz.

(* ===================================================================== *)
(** * server.py *)
(* ===================================================================== *)

Module Server.
Import Py.

Definition PORT : Z := 8000.

(** The request as the handler sees it: [self.command] and [self.path]
    (the request target as sent, query string included). *)
Record Request := mkRequest {
  command : string;
  path : string;
}.

(** The response a handler has produced so far. *)
Record Response := mkResponse {
  status : option Z;
  headers : list (string * string);
  body : string;
}.


(** What [SimpleHTTPRequestHandler.send_head] finds for a request. *)
Inductive Found :=
| Redirect (location : string)          (* a directory asked without "/" *)
| Missing                               (* nothing to open *)
| NotModified                           (* If-Modified-Since is fresh *)
| FileAt (fs_path : string) (data : string) (last_modified : string)
| Listing (html : string).              (* a directory without an index *)

(** The part of the handler that lives in the standard library
    ([http.server]) and on the host. *)
Record Host := {
  send_head_finds : Request → Found;
  version_string : string;
  date_time_string : string;
  super_guess_type : string → string;   (* [mimetypes] lookup *)
  error_body : Z → string;              (* the HTML page of [send_error] *)
}.




Section Handler.
Variable host : Host.
Variable req : Request.













End Handler.
End Server.

(* ===================================================================== *)
(** * Vocabulary of the statements *)
(* ===================================================================== *)

Module Log.
Import Py.

(** The subprocesses a log shows, in order: the command and its exit
    status, [None] when the executable could not be started. *)
Definition attempts (tr : list Event) : list (list string * option Z) :=
  omap (λ e, match e with
             | EvRun cmd rc => Some (cmd, Some rc)
             | EvSpawnFail cmd => Some (cmd, None)
             | _ => None
             end) tr.


(** What a [docker run] command line runs inside the container: the
    words after the options ([--rm], [-v volume]) and the image. *)
Fixpoint docker_payload (args : list string) : list string :=
  match args with
  | [] => []
  | a :: r =>
      if String.eqb a "--rm" then docker_payload r
      else if String.eqb a "-v" then
        match r with
        | [] => []
        | _ :: r' => docker_payload r'
        end
      else r
  end.

(** The tool invocation of a command, containerized or not. *)
Definition invoked (cmd : list string) : list string :=
  match cmd with
  | a :: b :: r =>
      if String.eqb a "docker" && String.eqb b "run" then docker_payload r
      else cmd
  | _ => cmd
  end.

Definition tool (cmd : list string) : option string := head (invoked cmd).

(** [flag value] occurs in the argument list. *)
Fixpoint has_option (flag value : string) (cmd : list string) : bool :=
  match cmd with
  | a :: (b :: _) as r =>
      (String.eqb a flag && String.eqb b value) || has_option flag value r
  | _ => false
  end.





(** What a failed start leaves behind: status 1, the two working
    directories untouched, no subprocess. *)
Definition clean_failure {A : Type} (env : Env) (fs : FS) (r : Result A)
    (fs' : FS) (tr : list Event) : Prop :=
  status_of r = 1
  ∧ contents (PROCESSED_DIR env) fs' = contents (PROCESSED_DIR env) fs
  ∧ contents (OUTPUT_DIR env) fs' = contents (OUTPUT_DIR env) fs
  ∧ attempts tr = [].

(** Weakest precondition of a script program: [Q] holds of its result,
    the file system it leaves and the events it emitted. *)
Definition wp {A} (m : M A) (Q : Result A → FS → list Event → Prop)
    (fs : FS) : Prop :=
  Q (res (m fs)) (fs_after (m fs)) (events (m fs)).

(** From every file system, all events of [m] satisfy [P] and every
    exception it raises satisfies [E]. *)
Definition emits {A} (P : Event → Prop) (E : PyExc → Prop) (m : M A) : Prop :=
  ∀ fs, Forall P (events (m fs))
        ∧ match res (m fs) with Raised e => E e | Ok _ => True end.

(** No constraint on the exceptions of a program. *)
Definition any_exception (e : PyExc) : Prop := True.

(** Properties of single events. *)
Definition on_commands (P : list string → Prop) (e : Event) : Prop :=
  match e with
  | EvRun c _ | EvSpawnFail c => P c
  | _ => True
  end.

Definition on_scans (P : Path → Prop) (e : Event) : Prop :=
  match e with
  | EvScan d _ _ => P d
  | _ => True
  end.

Definition on_writes (P : Json → Prop) (e : Event) : Prop :=
  match e with
  | EvWrite _ j => P j
  | _ => True
  end.

(** What the events of a raster run started on the file [p] look like:
    only the output directory is scanned, no command is a merge, and a
    reprojection reads [p]. *)
Definition raster_single_input (env : Env) (p : Path) (e : Event) : Prop :=
  on_scans (λ d, d = OUTPUT_DIR env) e
  ∧ on_commands (λ c,
      tool c ≠ Some "gdal_merge.py"
      ∧ (tool c = Some "gdalwarp" →
         c = Terrain.docker_warp_cmd env p
         ∨ c = Terrain.local_warp_cmd env p)) e.

(** The same for a point-cloud run started on [p]: every PDAL command is
    one of those built from [p], and every pipeline description written
    reads [p] (directly, or as the file the container mounts). *)
Definition cloud_single_input (env : Env) (p : Path) (e : Event) : Prop :=
  let dem := PROCESSED_DIR env </> "dem.tif" in
  let pipeline_file := PROCESSED_DIR env </> "pipeline.json" in
  on_scans (λ d, d = OUTPUT_DIR env) e
  ∧ on_commands (λ c,
      tool c ≠ Some "gdal_merge.py"
      ∧ (tool c = Some "pdal" →
         c ∈ [Laz.local_info_cmd p;
              Laz.docker_info_cmd p;
              Laz.docker_pipeline_cmd (resolve env p) (resolve env dem)
                pipeline_file;
              Laz.docker_translate_cmd (resolve env p) (resolve env dem);
              Laz.local_pipeline_cmd pipeline_file])) e
  ∧ on_writes (λ j,
      j = Laz.pdal_pipeline "/data/input.laz" "/data/output.tif"
      ∨ j = Laz.pdal_pipeline (str p) (str dem)) e.

(** The argument list of a reprojection, in the raster pipeline and in
    the point-cloud pipeline. *)
Definition raster_warp_shape (c : list string) : Prop :=
  tool c = Some "gdalwarp" →
  ∃ src dst,
    invoked c = ["gdalwarp"; "-t_srs"; "EPSG:4326"; "-r"; "bilinear";
                 "-of"; "GTiff"; src; dst].

Definition cloud_warp_shape (c : list string) : Prop :=
  tool c = Some "gdalwarp" →
  ∃ src dst,
    invoked c = ["gdalwarp"; "-t_srs"; "EPSG:4326"; "-r"; "bilinear";
                 "-of"; "GTiff"; "-co"; "COMPRESS=LZW"; src; dst].

(** The messages a log shows. *)
Definition reports (tr : list Event) : list Msg :=
  omap (λ e, match e with EvPrint m => Some m | _ => None end) tr.


(** What the point-cloud script treats as a failure: one of its failure
    reports, or a tool that could not be started. *)
Definition cloud_failure (e : Event) : bool :=
  match e with
  | EvPrint MsgMissingTools
  | EvPrint (MsgFileNotFound _)
  | EvPrint (MsgNoInputFound _)
  | EvPrint MsgFailedConvert
  | EvPrint MsgFailedReproject
  | EvSpawnFail _ => true
  | _ => false
  end.

(** The tiling tool has run, whatever its exit status. *)
Definition ctb_tile_ran (e : Event) : bool :=
  match e with
  | EvRun c _ => bool_decide (tool c = Some "ctb-tile")
  | _ => false
  end.

(** What a stage of the point-cloud pipeline before the tiling leaves in
    the log: no run of ctb-tile; when it returns, no failure; when it
    raises, not [SystemExit]. *)
Definition quiet_stage {A : Type} (r : Result A) (tr : list Event) : Prop :=
  existsb ctb_tile_ran tr = false
  ∧ match r with
    | Ok _ => existsb cloud_failure tr = false
    | Raised e => is_Exception e = true
    end.





End Log.

(* ===================================================================== *)
(** * Concrete hosts, for the runs the statements exhibit *)
(* ===================================================================== *)

Module Demo.
Import Py.

Definition project : Path := ["/"; "srv"; "climbing-map"].
Definition processed : Path := project ++ ["data"; "processed"].
Definition raw : Path := project ++ ["data"; "raw"].

(** A survey file outside the project, and two rasters in [data/raw]. *)
Definition site_laz : Path := ["/"; "data"; "site.laz"].

Definition fs_laz : FS := {[ ["/"; "data"] := Dir; site_laz := File (Blob 4096) ]}.

Definition fs_one_tif : FS :=
  {[ ["/"; "srv"] := Dir; project := Dir; project ++ ["data"] := Dir;
     raw := Dir; raw ++ ["north.tif"] := File (Blob 1024) ]}.

(** What the tools do on these hosts: [pdal pipeline] and [gdalwarp]
    write their output file, everything else leaves the files alone. *)
Definition writes (p : Path) (rc : Z) (fs : FS) : Z * FS :=
  (rc, <[p := File (Blob 2048)]> fs).

Definition exec_tools (pipeline_rc tile_rc : Z) (cmd : list string) (fs : FS)
  : Z * FS :=
  match Log.invoked cmd with
  | t :: a :: _ =>
      if String.eqb t "pdal" && String.eqb a "pipeline" then
        if pipeline_rc =? 0 then
          writes (processed ++
                  [if String.eqb (default "" (head cmd)) "docker"
                   then "output.tif" else "dem.tif"]) 0 fs
        else (pipeline_rc, fs)
      else if String.eqb t "gdalwarp" then writes (processed ++ ["wgs84.tif"]) 0 fs
      else if String.eqb t "ctb-tile" then (tile_rc, fs)
      else (0, fs)
  | _ => (0, fs)
  end.

Definition host (script : string) (installed : list string)
    (pipeline_rc tile_rc : Z) : Env :=
  {| which := λ prog, bool_decide (prog ∈ installed);
     exec := exec_tools pipeline_rc tile_rc;
     resolve := λ p, p;
     script_file := project ++ ["scripts"; script];
     dir_size := 4096%N;
     json_size := λ _, 512%N |}.

(** PDAL installed, neither Docker nor GDAL. *)
Definition host_pdal_only : Env := host "process_laz.py" ["pdal"] 0 0.

(** PDAL and GDAL installed, no Docker; [pdal pipeline] exits 1. *)
Definition host_pdal_failing : Env :=
  host "process_laz.py" ["pdal"; "gdalwarp"] 1 0.

(** Docker installed; [ctb-tile] exits 1 and writes nothing. *)
Definition host_tiling_fails : Env := host "process_laz.py" ["docker"] 0 1.

(** GDAL and ctb-tile installed, no Docker. *)
Definition host_local_raster : Env :=
  host "process_terrain.py" ["gdalwarp"; "ctb-tile"; "gdal_merge.py"] 0 0.

(** Docker installed, nothing else. *)
Definition host_docker_raster : Env := host "process_terrain.py" ["docker"] 0 0.



End Demo.

(* ===================================================================== *)
(** * scripts/download_bc_lidar.py *)
(* ===================================================================== *)

(** The downloader talks to two web services through [requests] and saves
    at most one file.  It has its own small monad: besides the file system
    it carries the lines it prints and the exceptions of its library
    calls.  What a service answers is a parameter of the host. *)

Module Download.
Import Py.

(** ** What [requests] gives the script *)

(** A decoded JSON document, as [response.json()] returns it.  A number
    is kept as an integer: the script only tests it for truth.  A dict is
    the list of its items in order, with every key once. *)
#[warnings="-register-all"] Inductive Value :=
| VNull
| VBool (b : bool)
| VNum (n : Z)
| VStr (s : string)
| VList (items : list Value)
| VDict (fields : list (string * Value)).

Record Response := {
  status_code : Z;
  (** [response.json()]; [None] when the body is not JSON *)
  json : option Value;
  (** the sizes of the chunks [iter_content] yields *)
  iter_content : list N;
  (** the connection breaks after them *)
  interrupted : bool;
}.

(** [response.ok]: the status is no client or server error. *)
Definition ok (r : Response) : bool :=
  negb ((400 <=? status_code r) && (status_code r <? 600)).

Record Query := {
  url : string;
  params : list (string * list string);
}.

Record Host := {
  (** [__file__] *)
  this_file : Path;
  (** [requests.get]; [None] when no reply arrives in time *)
  requests_get : Query → option Response;
}.

(** The exceptions of the library calls; every one is an [Exception]. *)
Inductive Exc :=
| RequestException
| JSONDecodeError
| AttributeError
| TypeError
| OSError
| ChunkedEncodingError.

(** The lines that depend on the run. *)
Inductive Line :=
| LTargetArea (west east south north : string)
| LSaveTo (dir : Path)
| LChecking
| LFound (n : nat)
| LTitle (v : Value)
| LId (v : Value)
| LNoMatches
| LApiStatus (code : Z)
| LCouldNotConnect (e : Exc)
| LDownloading
| LDownloaded (p : Path)
| LDownloadFailed (code : Z)
| LError (e : Exc).

(** ** The monad *)

Record Ran (A : Type) := mkRan {
  result : Exc + A;
  disk : FS;
  printed : list Line;
}.
Arguments mkRan {A} _ _ _.
Arguments result {A} _.
Arguments disk {A} _.
Arguments printed {A} _.

Definition M (A : Type) : Type := FS → Ran A.

Definition ret {A} (a : A) : M A := λ fs, mkRan (inr a) fs [].

Definition bind {A B} (m : M A) (k : A → M B) : M B := λ fs,
  let o := m fs in
  match result o with
  | inr a =>
      let o' := k a (disk o) in
      mkRan (result o') (disk o') (printed o ++ printed o')
  | inl e => mkRan (inl e) (disk o) (printed o)
  end.

Definition raise {A} (e : Exc) : M A := λ fs, mkRan (inl e) fs [].

Definition print (l : Line) : M unit := λ fs, mkRan (inr tt) fs [l].

(** [try: body  except Exception as e: handler] *)
Definition try_except {A} (body : M A) (handler : Exc → M A) : M A := λ fs,
  let o := body fs in
  match result o with
  | inr a => o
  | inl e =>
      let o' := handler e (disk o) in
      mkRan (result o') (disk o') (printed o ++ printed o')
  end.

(** What holds of the outcome of a program started on [fs]. *)
Definition wp {A} (m : M A) (Q : Exc + A → FS → list Line → Prop)
    (fs : FS) : Prop :=
  Q (result (m fs)) (disk (m fs)) (printed (m fs)).

Declare Scope dl_scope.
Delimit Scope dl_scope with dl.
Notation "x ← y ; z" := (bind y (λ x : _, z))
  (at level 20, y at level 100, z at level 200, only parsing) : dl_scope.
Notation "x ;; z" := (bind x (λ _, z))
  (at level 100, z at level 200, only parsing, right associativity) : dl_scope.
Open Scope dl_scope.

(** ** Values as Python sees them *)

Fixpoint assoc (k : string) (fields : list (string * Value)) : option Value :=
  match fields with
  | [] => None
  | (k', v) :: r => if String.eqb k k' then Some v else assoc k r
  end.

(** [v.get(k, d)]: only a dict has the method. *)
Definition dict_get (v : Value) (k : string) (d : Value) : M Value :=
  match v with
  | VDict fields => ret (default d (assoc k fields))
  | _ => raise AttributeError
  end.

(** [bool(v)] *)
Definition truthy (v : Value) : bool :=
  match v with
  | VNull => false
  | VBool b => b
  | VNum n => negb (n =? 0)
  | VStr s => negb (String.eqb s "")
  | VList items => match items with [] => false | _ => true end
  | VDict fields => match fields with [] => false | _ => true end
  end.

(** [len(v)] *)
Definition len (v : Value) : M nat :=
  match v with
  | VStr s => ret (String.length s)
  | VList items => ret (length items)
  | VDict fields => ret (length fields)
  | _ => raise TypeError
  end.

(** What [for r in v] goes through: the items of a list, the keys of a
    dict, the characters of a string. *)
Definition iter (v : Value) : M (list Value) :=
  match v with
  | VList items => ret items
  | VDict fields => ret (map (λ kv, VStr kv.1) fields)
  | VStr s =>
      ret (map (λ c, VStr (String c EmptyString)) (String.list_ascii_of_string s))
  | _ => raise TypeError
  end.

Section Script.
Variable h : Host.

(** [BOUNDS], each float as an f-string writes it. *)
Definition BOUNDS_west : string := "-123.2".
Definition BOUNDS_south : string := "49.65".
Definition BOUNDS_east : string := "-123.1".
Definition BOUNDS_north : string := "49.72".

Definition OUTPUT_DIR : Path :=
  parent (parent (this_file h)) </> "data" </> "raw".

Definition get (q : Query) : M Response :=
  match requests_get h q with
  | Some r => ret r
  | None => raise RequestException
  end.

Definition response_json (r : Response) : M Value :=
  match json r with
  | Some v => ret v
  | None => raise JSONDecodeError
  end.

(** [p.mkdir(parents=True, exist_ok=True)] *)
Definition mkdir (p : Path) : M unit := λ fs,
  match mkdir_parents p fs with
  | Some fs' => mkRan (inr tt) fs' []
  | None => mkRan (inl OSError) fs []
  end.

Definition api_query : Query :=
  {| url := "https://catalogue.data.gov.bc.ca/api/3/action/package_search";
     params := [("q", ["lidar dem squamish"]); ("rows", ["5"])] |}.

(** The loop over the datasets found. *)
Fixpoint print_datasets (results : list Value) : M unit :=
  match results with
  | [] => ret tt
  | r :: rest =>
      title ← dict_get r "title" (VStr "Unknown");
      print (LTitle title);;
      id ← dict_get r "id" (VStr "N/A");
      print (LId id);;
      print_datasets rest
  end.

Definition check_bc_opendata : M unit :=
  print LChecking;;
  try_except
    (response ← get api_query;
     if ok response then
       data ← response_json response;
       result ← dict_get data "result" (VDict []);
       results ← dict_get result "results" (VList []);
       if truthy results then
         n ← len results;
         print (LFound n);;
         items ← iter results;
         print_datasets items
       else print LNoMatches
     else print (LApiStatus (status_code response)))
    (λ e, print (LCouldNotConnect e)).

Definition download_bc_dem : M unit :=
  (* Create output directory *)
  mkdir OUTPUT_DIR;;
  print (LTargetArea BOUNDS_west BOUNDS_east BOUNDS_south BOUNDS_north);;
  print (LSaveTo OUTPUT_DIR);;
  (* Try to fetch from BC Open Data *)
  check_bc_opendata;;
  print (LSaveTo OUTPUT_DIR).

Definition cdem_query : Query :=
  {| url := "https://datacube.services.geo.ca/ows/elevation";
     params :=
       [("service", ["WCS"]);
        ("version", ["2.0.1"]);
        ("request", ["GetCoverage"]);
        ("CoverageId", ["dtm"]);
        ("subset",
         ["Long(" +:+ BOUNDS_west +:+ "," +:+ BOUNDS_east +:+ ")";
          "Lat(" +:+ BOUNDS_south +:+ "," +:+ BOUNDS_north +:+ ")"]);
        ("format", ["image/tiff"])] |}.

(** The bytes that arrived. *)
Definition received (r : Response) : N := foldr N.add 0%N (iter_content r).

(** [with open(p, 'wb') as f:] followed by [f.write] of every chunk; the
    file is closed, with what was written, also when the stream breaks. *)
Definition save_stream (p : Path) (r : Response) : M unit := λ fs,
  if is_dir fs (parent p) && negb (is_dir fs p) then
    let fs' := <[p := File (Blob (received r))]> fs in
    if interrupted r then mkRan (inl ChunkedEncodingError) fs' []
    else mkRan (inr tt) fs' []
  else mkRan (inl OSError) fs [].

Definition cdem_file : Path := OUTPUT_DIR </> "cdem_squamish.tif".

Definition download_cdem_fallback : M (option string) :=
  print LDownloading;;
  try_except
    (response ← get cdem_query;
     if ok response then
       let output_file := cdem_file in
       save_stream output_file response;;
       print (LDownloaded output_file);;
       ret (Some (str output_file))
     else
       print (LDownloadFailed (status_code response));;
       ret None)
    (λ e, print (LError e);; ret None).

(** [len(sys.argv) > 1 and sys.argv[1] == 'cdem'] *)
Definition wants_cdem (argv : list string) : bool :=
  (1 <? length argv)%nat && String.eqb (default "" (argv !! 1%nat)) "cdem".

(** The script run as a program. *)
Definition main (argv : list string) : M unit :=
  if wants_cdem argv then
    download_cdem_fallback;;
    ret tt
  else download_bc_dem.

End Script.
End Download.


(* ===================================================================== *)
(** * Further vocabulary *)
(* ===================================================================== *)

Module Cover.
Import Py Log.


(** What a script finds in the raw-data directory once it has made sure
    the directory exists: the matches of the first pattern, then those of
    the second. *)
Definition raw_listing (env : Env) (fs : FS) (pat1 pat2 : string)
  : list Path :=
  match mkdir_parents (RAW_DATA_DIR env) fs with
  | Some fs' =>
      glob fs' (RAW_DATA_DIR env) pat1 ++ glob fs' (RAW_DATA_DIR env) pat2
  | None => []
  end.

(** A run of ctb-tile that exited with status 0. *)
Definition tiled_ok (e : Event) : bool :=
  match e with
  | EvRun c rc => (rc =? 0) && bool_decide (tool c = Some "ctb-tile")
  | _ => false
  end.

(** The command is a [docker run]. *)
Definition containerized (c : list string) : Prop := head c = Some "docker".

(** The file-system actions of the raster script itself: it creates its
    three directories and writes or moves nothing. *)
Definition raster_footprint (env : Env) (e : Event) : Prop :=
  match e with
  | EvMkdir p => p ∈ [RAW_DATA_DIR env; PROCESSED_DIR env; OUTPUT_DIR env]
  | EvWrite _ _ | EvMove _ _ => False
  | _ => True
  end.

(** Those of the point-cloud script: its directories (the processed one
    also as [resolve] gives it), the pipeline description, and moves of the
    three rasters the tools leave beside the DEM. *)
Definition cloud_footprint (env : Env) (e : Event) : Prop :=
  let dem := PROCESSED_DIR env </> "dem.tif" in
  match e with
  | EvMkdir p =>
      p ∈ [RAW_DATA_DIR env; PROCESSED_DIR env; OUTPUT_DIR env;
           parent (resolve env dem)]
  | EvWrite p _ => p = PROCESSED_DIR env </> "pipeline.json"
  | EvMove src _ =>
      src ∈ [parent (resolve env dem) </> "output.tif";
             parent (resolve env dem) </> "dem.tif";
             parent (resolve env dem) </> "wgs84.tif"]
  | _ => True
  end.

(** The commands and pipeline descriptions of a point-cloud run that
    works on [p]. *)
Definition cloud_works_on (env : Env) (p : Path) (e : Event) : Prop :=
  let dem := PROCESSED_DIR env </> "dem.tif" in
  let pipeline_file := PROCESSED_DIR env </> "pipeline.json" in
  on_commands (λ c,
      tool c = Some "pdal" →
      c ∈ [Laz.local_info_cmd p;
           Laz.docker_info_cmd p;
           Laz.docker_pipeline_cmd (resolve env p) (resolve env dem)
             pipeline_file;
           Laz.docker_translate_cmd (resolve env p) (resolve env dem);
           Laz.local_pipeline_cmd pipeline_file]) e
  ∧ on_writes (λ j,
      j = Laz.pdal_pipeline "/data/input.laz" "/data/output.tif"
      ∨ j = Laz.pdal_pipeline (str p) (str dem)) e.


(** A host with Docker on which every tool exits with status 1 and
    writes nothing, and a processed directory left by an earlier run. *)
Definition host_all_fail : Env :=
  {| which := λ prog, bool_decide (prog = "docker");
     exec := λ _ fs, (1, fs);
     resolve := λ p, p;
     script_file := Demo.project ++ ["scripts"; "process_laz.py"];
     dir_size := 4096%N;
     json_size := λ _, 512%N |}.


(** With Docker installed, what the point-cloud script starts outside a
    container: the file summary and the retried reprojection. *)
Definition contained_or_helper (c : list string) : Prop :=
  containerized c
  ∨ tool c = Some "gdalwarp"
  ∨ ∃ f, c = Laz.local_info_cmd f.

(** PDAL and GDAL installed and working, no Docker. *)
Definition host_local_complete : Env :=
  Demo.host "process_laz.py" ["pdal"; "gdalwarp"] 0 0.

(** A raw-data directory with a point cloud of each kind. *)
Definition fs_two_clouds : FS :=
  {[ ["/"; "srv"] := Dir; Demo.project := Dir;
     Demo.project ++ ["data"] := Dir; Demo.raw := Dir;
     Demo.raw ++ ["b.las"] := File (Blob 10);
     Demo.raw ++ ["a.laz"] := File (Blob 20) ]}.


(** A catalogue reply with two datasets, the second without a title, and
    an elevation service that sends a raster in three chunks. *)
Definition catalogue_reply : Download.Response :=
  {| Download.status_code := 200;
     Download.json := Some (Download.VDict
       [("success", Download.VBool true);
        ("result", Download.VDict
           [("count", Download.VNum 2);
            ("results", Download.VList
               [Download.VDict [("id", Download.VStr "a1");
                                ("title", Download.VStr "LidarBC DEM")];
                Download.VDict [("id", Download.VStr "b2")]])])]);
     Download.iter_content := [];
     Download.interrupted := false |}.

Definition raster_reply (cut : bool) : Download.Response :=
  {| Download.status_code := 200;
     Download.json := None;
     Download.iter_content := [8192; 8192; 100]%N;
     Download.interrupted := cut |}.

Definition web (cut : bool) : Download.Host :=
  {| Download.this_file := Demo.project ++ ["scripts"; "download_bc_lidar.py"];
     Download.requests_get := λ q,
       if String.eqb (Download.url q) (Download.url Download.api_query)
       then Some catalogue_reply
       else Some (raster_reply cut) |}.


(** A checkout in which [data/raw] does not exist yet. *)
Definition fs_fresh_checkout : FS :=
  {[ ["/"; "srv"] := Dir; Demo.project := Dir;
     Demo.project ++ ["scripts"] := Dir ]}.

End Cover.

(* ===================================================================== *)
(** * The tile server *)
(* ===================================================================== *)

Import Py Log.
Open Scope py_scope.

Section ServerFacts.
Variable host : Server.Host.
Variable req : Server.Request.







End ServerFacts.





(* ===================================================================== *)
(** * Reasoning about script programs *)
(* ===================================================================== *)

Section WpRules.
Context {A B : Type}.

Lemma wp_ret (a : A) Q fs : Q (Ok a) fs [] → wp (ret a) Q fs.
Proof. done. Qed.

Lemma wp_raise (e : PyExc) (Q : Result A → FS → list Event → Prop) (fs : FS) :
  Q (Raised e) fs [] → wp (raise e) Q fs.
Proof. done. Qed.

Lemma wp_bind (m : M A) (k : A → M B) Q fs :
  wp m (λ r fs1 tr1,
          match r with
          | Ok a => wp (k a) (λ r2 fs2 tr2, Q r2 fs2 (tr1 ++ tr2)) fs1
          | Raised e => Q (Raised e) fs1 tr1
          end) fs →
  wp (bind m k) Q fs.
Proof. unfold wp, bind. by destruct (res (m fs)). Qed.

Lemma wp_try (body : M A) handler Q fs :
  wp body (λ r fs1 tr1,
             match r with
             | Ok a => Q (Ok a) fs1 tr1
             | Raised e =>
                 match handler e with
                 | Some h => wp h (λ r2 fs2 tr2, Q r2 fs2 (tr1 ++ tr2)) fs1
                 | None => Q (Raised e) fs1 tr1
                 end
             end) fs →
  wp (try_except body handler) Q fs.
Proof.
  unfold wp, try_except. destruct (res (body fs)) eqn:E; [by rewrite E|].
  destruct (handler e); [done|by rewrite E].
Qed.

Lemma wp_read (f : FS → A) Q fs : Q (Ok (f fs)) fs [] → wp (read f) Q fs.
Proof. done. Qed.

End WpRules.

Section WpEffects.
Variable env : Env.

Lemma wp_print m Q fs : Q (Ok tt) fs [EvPrint m] → wp (print m) Q fs.
Proof. done. Qed.

Lemma wp_path_exists p Q fs :
  Q (Ok (exists_ fs p)) fs [] → wp (path_exists p) Q fs.
Proof. done. Qed.

Lemma wp_mkdir p Q fs :
  (∀ fs', mkdir_parents p fs = Some fs' → Q (Ok tt) fs' [EvMkdir p]) →
  (mkdir_parents p fs = None → Q (Raised OSError) fs []) →
  wp (mkdir p) Q fs.
Proof. unfold wp, mkdir. destruct (mkdir_parents p fs); eauto. Qed.

Lemma wp_run cmd prog Q fs :
  head cmd = Some prog →
  (which env prog = true → ∀ rc fs', exec env cmd fs = (rc, fs') →
     Q (Ok rc) fs' [EvRun cmd rc]) →
  (which env prog = false →
     Q (Raised FileNotFoundError) fs [EvSpawnFail cmd]) →
  wp (subprocess_run env cmd) Q fs.
Proof.
  unfold wp, subprocess_run. destruct cmd as [|p args]; [done|].
  intros [= ->] Hrun Hfail. destruct (which env prog); [|eauto].
  destruct (exec env (prog :: args) fs) as [rc fs'] eqn:E. cbn. eauto.
Qed.

Lemma wp_run_check cmd prog Q fs :
  head cmd = Some prog →
  (which env prog = true → ∀ fs', Q (Ok tt) fs' [EvRun cmd 0]) →
  (which env prog = true → ∀ rc fs', rc ≠ 0 →
     Q (Raised (CalledProcessError rc)) fs' [EvRun cmd rc]) →
  (which env prog = false →
     Q (Raised FileNotFoundError) fs [EvSpawnFail cmd]) →
  wp (subprocess_run_check env cmd) Q fs.
Proof.
  intros Hd Hok Hbad Hfail. unfold subprocess_run_check.
  apply wp_bind, (wp_run _ prog); [done| |done].
  intros Hw rc fs' _. destruct (Z.eqb_spec rc 0) as [->|Hne].
  - apply wp_ret. rewrite app_nil_r. eauto.
  - apply wp_raise. rewrite app_nil_r. eauto.
Qed.

Lemma wp_glob d pat Q fs :
  Q (Ok (glob fs d pat)) fs [EvScan d pat false] → wp (path_glob d pat) Q fs.
Proof. done. Qed.

Lemma wp_rglob d pat Q fs :
  Q (Ok (rglob fs d pat)) fs [EvScan d pat true] → wp (path_rglob d pat) Q fs.
Proof. done. Qed.

Lemma wp_iterdir d Q fs :
  Q (Ok (iterdir fs d)) fs [EvScan d "*" false] → wp (path_iterdir d) Q fs.
Proof. done. Qed.

Lemma wp_write_json p j Q fs :
  (∀ fs', Q (Ok tt) fs' [EvWrite p j]) →
  Q (Raised OSError) fs [] →
  wp (write_json p j) Q fs.
Proof. unfold wp, write_json. destruct (_ && _); eauto. Qed.

Lemma wp_move src dst Q fs :
  (∀ fs' dst', Q (Ok tt) fs' [EvMove src dst']) →
  Q (Raised ShutilError) fs [] →
  wp (shutil_move src dst) Q fs.
Proof.
  unfold wp, shutil_move. intros Hok Hbad.
  destruct (bool_decide _); [eauto|].
  destruct (is_dir fs dst); [|eauto]. destruct (exists_ _ _); eauto.
Qed.

Lemma wp_stat_size p Q fs :
  (∀ n, Q (Ok n) fs []) →
  Q (Raised FileNotFoundError) fs [] →
  wp (Laz.stat_size env p) Q fs.
Proof. unfold wp, Laz.stat_size. destruct (exists_ fs p); eauto. Qed.

End WpEffects.

Lemma wp_wand {A} (m : M A) (Q1 Q2 : Result A → FS → list Event → Prop) fs :
  wp m Q1 fs → (∀ r fs' tr, Q1 r fs' tr → Q2 r fs' tr) → wp m Q2 fs.
Proof. unfold wp. eauto. Qed.

Lemma wp_events {A} (m : M A) (P : list Event → Prop) (fs : FS) :
  wp m (λ _ _ tr, P tr) fs → P (events (m fs)).
Proof. done. Qed.

(** A statement about the events of a run, turned into a [wp]. *)
Ltac events_wp :=
  match goal with
  | |- context [events (?m ?fs)] =>
      pattern (events (m fs)); apply (wp_events m _ fs)
  end.

Lemma wp_run_found env cmd prog Q fs :
  head cmd = Some prog → which env prog = true →
  (∀ rc fs', Q (Ok rc) fs' [EvRun cmd rc]) →
  wp (subprocess_run env cmd) Q fs.
Proof.
  intros Hd Hw HQ. apply (wp_run env cmd prog); [done|eauto|congruence].
Qed.

Lemma wp_run_missing env cmd prog Q fs :
  head cmd = Some prog → which env prog = false →
  Q (Raised FileNotFoundError) fs [EvSpawnFail cmd] →
  wp (subprocess_run env cmd) Q fs.
Proof.
  intros Hd Hw HQ. apply (wp_run env cmd prog); [done|congruence|eauto].
Qed.

(** A test whose outcome is already known is not split again. *)
Ltac wp_case b :=
  lazymatch b with
  | negb ?c => wp_case c; cbn [negb]
  | _ =>
      first [ match goal with
              | H : b = true |- _ => rewrite H
              | H : b = false |- _ => rewrite H
              end
            | destruct b eqn:? ]
  end.

(** One step of symbolic execution. *)
Ltac wp_step :=
  lazymatch goal with
  | |- wp (bind _ _) _ _ => apply wp_bind
  | |- wp (ret _) _ _ => apply wp_ret
  | |- wp (raise _) _ _ => apply wp_raise
  | |- wp (sys_exit _) _ _ => apply wp_raise
  | |- wp (print _) _ _ => apply wp_print
  | |- wp (read _) _ _ => apply wp_read
  | |- wp (path_exists _) _ _ => apply wp_path_exists
  | |- wp (path_glob _ _) _ _ => apply wp_glob
  | |- wp (path_rglob _ _) _ _ => apply wp_rglob
  | |- wp (path_iterdir _) _ _ => apply wp_iterdir
  | |- wp (try_except _ _) _ _ => apply wp_try
  | |- wp (mkdir _) _ _ => apply wp_mkdir; [intros ? ?|intros ?]
  | |- wp (write_json _ _) _ _ => apply wp_write_json; [intros ?|]
  | |- wp (shutil_move _ _) _ _ => apply wp_move; [intros ? ?|]
  | |- wp (Laz.stat_size _ _) _ _ => apply wp_stat_size; [intros ?|]
  | |- wp (subprocess_run_check _ _) _ _ =>
      eapply wp_run_check; [reflexivity|intros ? ?|intros ? ? ? ?|intros ?]
  | |- wp (subprocess_run _ _) _ _ =>
      first [ eapply wp_run_found; [reflexivity|eassumption|intros ? ?]
            | eapply wp_run_missing; [reflexivity|eassumption|]
            | eapply wp_run; [reflexivity|intros ? ? ? ?|intros ?] ]
  | |- wp (if ?b then _ else _) _ _ => wp_case b
  | |- wp (match ?x with _ => _ end) _ _ => destruct x eqn:?
  end.

Ltac wp_run := repeat (wp_step; try congruence).

(** The same without looking for contradictions at every step. *)
Ltac wp_exec := repeat wp_step.

(** ** The file system under [mkdir] *)

Lemma mkdir_from_lookup done todo fs fs' q :
  mkdir_from done todo fs = Some fs' →
  ¬ q `prefix_of` done ++ todo →
  fs' !! q = fs !! q.
Proof.
  revert done fs. induction todo as [|c r IH]; intros done fs Hmk Hq; cbn in Hmk.
  - by simplify_eq.
  - assert (Hq' : ¬ q `prefix_of` (done ++ [c]) ++ r)
      by (by rewrite <- app_assoc).
    assert (q ≠ done ++ [c]).
    { intros ->. apply Hq. exists r. by rewrite <- app_assoc. }
    destruct (lookup_path fs (done ++ [c])) as [[|d]|]; [eauto|done|].
    rewrite (IH _ _ Hmk Hq'). by apply lookup_insert_ne.
Qed.

Lemma mkdir_parents_lookup p fs fs' q :
  mkdir_parents p fs = Some fs' → ¬ q `prefix_of` p → fs' !! q = fs !! q.
Proof. apply mkdir_from_lookup. Qed.

(** Creating [p] leaves the contents of any directory that does not
    contain [p] as they were. *)
Lemma mkdir_parents_contents p d fs fs' :
  mkdir_parents p fs = Some fs' → ¬ d `prefix_of` p →
  contents d fs' = contents d fs.
Proof.
  intros Hmk Hd. apply map_eq. intros q. unfold contents.
  rewrite !map_lookup_filter.
  destruct (decide (d `prefix_of` q)) as [Hdq|Hdq].
  - rewrite (mkdir_parents_lookup p fs fs' q); [done..|].
    intros Hqp. apply Hd. by etrans.
  - destruct (fs' !! q), (fs !! q); cbn; by rewrite ?option_guard_False.
Qed.

(** ** The fixed directories *)

Section Directories.
Variable env : Env.

Lemma processed_not_above_raw :
  ¬ PROCESSED_DIR env `prefix_of` RAW_DATA_DIR env.
Proof.
  unfold PROCESSED_DIR, RAW_DATA_DIR, joinpath.
  rewrite <- !app_assoc. intros H%prefix_app_inv. cbn in H.
  apply prefix_cons_inv_2, prefix_cons_inv_1 in H. discriminate.
Qed.

Lemma output_not_above_raw :
  ¬ OUTPUT_DIR env `prefix_of` RAW_DATA_DIR env.
Proof.
  unfold OUTPUT_DIR, RAW_DATA_DIR, joinpath.
  rewrite <- !app_assoc. intros H%prefix_app_inv. cbn in H.
  apply prefix_cons_inv_1 in H. discriminate.
Qed.

End Directories.

(** ** Directory scans *)

Lemma elem_of_iterdir fs d p :
  p ∈ iterdir fs d ↔ is_Some (fs !! p) ∧ is_child d p = true.
Proof.
  unfold iterdir. rewrite list_elem_of_filter, list_elem_of_fmap. split.
  - intros [Hc [[q n] [-> Hin%elem_of_map_to_list]]]. eauto.
  - intros [[n Hn] Hc]. split; [done|]. exists (p, n).
    split; [done|]. by apply elem_of_map_to_list.
Qed.

Lemma elem_of_glob fs d pat p :
  p ∈ glob fs d pat
  ↔ is_Some (fs !! p) ∧ is_child d p = true ∧ fnmatch pat (name p) = true.
Proof.
  unfold glob. rewrite list_elem_of_filter, elem_of_iterdir. tauto.
Qed.

Lemma child_not_prefix d p : is_child d p = true → ¬ p `prefix_of` d.
Proof.
  unfold is_child. rewrite bool_decide_eq_true. intros [_ Hlen] Hp.
  apply prefix_length in Hp. lia.
Qed.

(** Creating a directory does not bring files into it. *)
Lemma glob_nil_after_mkdir fs fs' d pat :
  mkdir_parents d fs = Some fs' → glob fs d pat = [] → glob fs' d pat = [].
Proof.
  intros Hmk Hnil. apply elem_of_nil_inv. intros p Hp.
  apply elem_of_glob in Hp as (Hsome & Hc & Hm).
  rewrite (mkdir_parents_lookup d fs fs' p Hmk (child_not_prefix _ _ Hc)) in Hsome.
  assert (p ∈ glob fs d pat) as Hin by (apply elem_of_glob; eauto).
  rewrite Hnil in Hin. by apply not_elem_of_nil in Hin.
Qed.

(* ===================================================================== *)
(** * The raster pipeline *)
(* ===================================================================== *)

(** C4. [verify_output] returns [True] exactly when [layer.json] exists
    in the output directory, whatever the directory holds otherwise: the
    number of zoom directories, the number of [.terrain] files (zero
    included) and the total size are computed and printed, never tested.
    It changes no file. *)
Theorem verify_output_iff_layer_json env fs :
  res (Terrain.verify_output env fs)
    = Ok (exists_ fs (OUTPUT_DIR env </> "layer.json"))
  ∧ fs_after (Terrain.verify_output env fs) = fs.
Proof.
  change (wp (Terrain.verify_output env)
            (λ r fs' _,
               r = Ok (exists_ fs (OUTPUT_DIR env </> "layer.json"))
               ∧ fs' = fs) fs).
  unfold Terrain.verify_output. wp_run; auto.
Qed.

#[local] Arguments Terrain.docker_merge_cmd : simpl never.
#[local] Arguments Terrain.docker_warp_cmd : simpl never.
#[local] Arguments Terrain.docker_tile_cmd : simpl never.
#[local] Arguments Terrain.docker_layer_cmd : simpl never.
#[local] Arguments Terrain.local_merge_cmd : simpl never.
#[local] Arguments Terrain.local_warp_cmd : simpl never.
#[local] Arguments Terrain.local_tile_cmd : simpl never.
#[local] Arguments Terrain.local_layer_cmd : simpl never.


(** The tool each command of the raster pipeline runs. *)
Lemma terrain_tools env files f :
  tool (Terrain.docker_merge_cmd env files) = Some "gdal_merge.py"
  ∧ tool (Terrain.local_merge_cmd env files) = Some "gdal_merge.py"
  ∧ tool (Terrain.docker_warp_cmd env f) = Some "gdalwarp"
  ∧ tool (Terrain.local_warp_cmd env f) = Some "gdalwarp"
  ∧ tool (Terrain.docker_tile_cmd env) = Some "ctb-tile"
  ∧ tool (Terrain.local_tile_cmd env) = Some "ctb-tile"
  ∧ tool (Terrain.docker_layer_cmd env) = Some "ctb-tile"
  ∧ tool (Terrain.local_layer_cmd env) = Some "ctb-tile".
Proof. repeat split; reflexivity. Qed.

Section RasterPlans.
Variable env : Env.






End RasterPlans.



(** ** Runs without input *)

Section NoInput.
Variable env : Env.

Lemma find_input_files_nothing fs :
  glob fs (RAW_DATA_DIR env) "*.tif" = [] →
  glob fs (RAW_DATA_DIR env) "*.tiff" = [] →
  wp (Terrain.find_input_files env)
     (λ r fs' tr,
        (r = Ok [] ∨ r = Raised OSError)
        ∧ contents (PROCESSED_DIR env) fs' = contents (PROCESSED_DIR env) fs
        ∧ contents (OUTPUT_DIR env) fs' = contents (OUTPUT_DIR env) fs
        ∧ attempts tr = []) fs.
Proof.
  intros Htif Htiff. unfold Terrain.find_input_files.
  wp_step. wp_step; [|by auto].
  do 4 wp_step.
  rewrite (glob_nil_after_mkdir fs fs' _ _ H Htif).
  rewrite (glob_nil_after_mkdir fs fs' _ _ H Htiff). cbn.
  wp_run. cbn. split; [by left|].
  split; [|split; [|done]].
  - apply (mkdir_parents_contents _ _ _ _ H), processed_not_above_raw.
  - apply (mkdir_parents_contents _ _ _ _ H), output_not_above_raw.
Qed.

Lemma terrain_main_no_input argv fs :
  (length argv ≤ 1)%nat →
  glob fs (RAW_DATA_DIR env) "*.tif" = [] →
  glob fs (RAW_DATA_DIR env) "*.tiff" = [] →
  wp (Terrain.main env argv) (clean_failure env fs) fs.
Proof.
  intros Hlen%Nat.ltb_ge Htif Htiff.
  unfold Terrain.main, Terrain.check_dependencies. rewrite Hlen.
  wp_run; try done;
    (eapply wp_wand; [by apply find_input_files_nothing|]);
    intros r fs' tr ([-> | ->] & HP & HO & Htr); unfold clean_failure;
    try (apply wp_raise); cbn; rewrite ?app_nil_r; auto.
Qed.

Lemma laz_main_no_input argv fs :
  (length argv ≤ 1)%nat →
  glob fs (RAW_DATA_DIR env) "*.laz" = [] →
  glob fs (RAW_DATA_DIR env) "*.las" = [] →
  wp (Laz.main env argv) (clean_failure env fs) fs.
Proof.
  intros Hlen Hlaz Hlas. unfold Laz.main.
  assert ((length argv <? 2)%nat = true) as -> by (apply Nat.ltb_lt; lia).
  do 3 wp_step; [|done].
  do 4 wp_step.
  rewrite (glob_nil_after_mkdir fs fs' _ _ H Hlaz).
  rewrite (glob_nil_after_mkdir fs fs' _ _ H Hlas). cbn.
  wp_run. unfold clean_failure. cbn. split; [done|].
  split; [|split; [|done]].
  - apply (mkdir_parents_contents _ _ _ _ H), processed_not_above_raw.
  - apply (mkdir_parents_contents _ _ _ _ H), output_not_above_raw.
Qed.

End NoInput.

(** C6. Started without a positional argument while the raw-data
    directory holds no input file of the script's kind, either script
    exits with status 1; the entries at and below the processed directory
    and the tile output directory are those of before the run, and no
    subprocess was started. *)
Theorem no_input_fails_cleanly env prog fs :
  (glob fs (RAW_DATA_DIR env) "*.tif" = [] →
   glob fs (RAW_DATA_DIR env) "*.tiff" = [] →
   exit_status (Terrain.main env [prog] fs) = 1
   ∧ contents (PROCESSED_DIR env) (fs_after (Terrain.main env [prog] fs))
     = contents (PROCESSED_DIR env) fs
   ∧ contents (OUTPUT_DIR env) (fs_after (Terrain.main env [prog] fs))
     = contents (OUTPUT_DIR env) fs
   ∧ attempts (events (Terrain.main env [prog] fs)) = [])
  ∧ (glob fs (RAW_DATA_DIR env) "*.laz" = [] →
     glob fs (RAW_DATA_DIR env) "*.las" = [] →
     exit_status (Laz.main env [prog] fs) = 1
     ∧ contents (PROCESSED_DIR env) (fs_after (Laz.main env [prog] fs))
       = contents (PROCESSED_DIR env) fs
     ∧ contents (OUTPUT_DIR env) (fs_after (Laz.main env [prog] fs))
       = contents (OUTPUT_DIR env) fs
     ∧ attempts (events (Laz.main env [prog] fs)) = []).
Proof.
  split; intros H1 H2.
  - exact (terrain_main_no_input env [prog] fs (le_n 1) H1 H2).
  - exact (laz_main_no_input env [prog] fs (le_n 1) H1 H2).
Qed.

Lemma no_input_fails_cleanly_witness :
  exit_status (Terrain.main Demo.host_local_raster ["process_terrain.py"]
                 Demo.fs_laz) = 1
  ∧ exit_status (Laz.main Demo.host_pdal_only ["process_laz.py"]
                   Demo.fs_one_tif) = 1.
Proof.
  split.
  - refine (proj1 (proj1 (no_input_fails_cleanly Demo.host_local_raster
                            "process_terrain.py" Demo.fs_laz) _ _));
      vm_compute; reflexivity.
  - refine (proj1 (proj2 (no_input_fails_cleanly Demo.host_pdal_only
                            "process_laz.py" Demo.fs_one_tif) _ _));
      vm_compute; reflexivity.
Defined.

(* ===================================================================== *)
(** * Properties of every event of a program *)
(* ===================================================================== *)

Section EmitsRules.
Context {A B : Type}.
Variable P : Event → Prop.
Variable E : PyExc → Prop.

Lemma emits_ret (a : A) : emits P E (ret a).
Proof. intros fs. cbn. auto. Qed.

Lemma emits_raise (e : PyExc) : E e → emits P E (raise e : M A).
Proof. intros He fs. cbn. auto. Qed.

Lemma emits_bind (m : M A) (k : A → M B) :
  emits P E m → (∀ a, emits P E (k a)) → emits P E (bind m k).
Proof.
  intros Hm Hk fs. unfold bind. destruct (Hm fs) as [Hev Hres].
  destruct (res (m fs)) as [a|e]; cbn; [|done].
  destruct (Hk a (fs_after (m fs))) as [Hev' Hres'].
  split; [by apply Forall_app|done].
Qed.

Lemma emits_bind_ret (a : A) (k : A → M B) :
  emits P E (k a) → emits P E (bind (ret a) k).
Proof.
  intros Hk fs. unfold bind, ret. cbn. destruct (Hk fs). auto.
Qed.

Lemma emits_try (body : M A) handler :
  emits P (λ e, match handler e with
                | Some h => emits P E h
                | None => E e
                end) body →
  emits P E (try_except body handler).
Proof.
  intros Hb fs. unfold try_except. destruct (Hb fs) as [Hev Hres].
  destruct (res (body fs)) as [a|e] eqn:Er; [by rewrite Er|].
  destruct (handler e) as [h|]; [|by rewrite Er].
  destruct (Hres (fs_after (body fs))) as [Hev' Hres']. cbn.
  split; [by apply Forall_app|done].
Qed.

Lemma emits_read (f : FS → A) : emits P E (read f).
Proof. intros fs. cbn. auto. Qed.

Lemma emits_wp (m : M A) Q fs :
  emits P E m →
  (∀ r fs' tr, Forall P tr →
     match r with Raised e => E e | Ok _ => True end → Q r fs' tr) →
  wp m Q fs.
Proof. intros Hm HQ. destruct (Hm fs). by apply HQ. Qed.

End EmitsRules.

Section EmitsEffects.
Variable env : Env.
Variable P : Event → Prop.
Variable E : PyExc → Prop.

Lemma emits_print m : P (EvPrint m) → emits P E (print m).
Proof. intros H fs. cbn. auto. Qed.

Lemma emits_path_exists p : emits P E (path_exists p).
Proof. apply emits_read. Qed.

Lemma emits_mkdir p : P (EvMkdir p) → E OSError → emits P E (mkdir p).
Proof.
  intros H He fs. unfold mkdir. destruct (mkdir_parents p fs); cbn; auto.
Qed.

Lemma emits_run cmd :
  (∀ rc, P (EvRun cmd rc)) → P (EvSpawnFail cmd) →
  E FileNotFoundError → E IndexError →
  emits P E (subprocess_run env cmd).
Proof.
  intros Hrun Hfail He1 He2 fs. unfold subprocess_run.
  destruct cmd as [|prog args]; [cbn; auto|].
  destruct (which env prog); [|cbn; auto].
  destruct (exec env (prog :: args) fs). cbn. auto.
Qed.

Lemma emits_run_check cmd :
  (∀ rc, P (EvRun cmd rc)) → P (EvSpawnFail cmd) →
  E FileNotFoundError → E IndexError →
  (∀ rc, E (CalledProcessError rc)) →
  emits P E (subprocess_run_check env cmd).
Proof.
  intros Hrun Hfail He1 He2 He3. unfold subprocess_run_check.
  apply emits_bind; [by apply emits_run|].
  intros rc. destruct (rc =? 0); [apply emits_ret|by apply emits_raise].
Qed.

Lemma emits_glob d pat : P (EvScan d pat false) → emits P E (path_glob d pat).
Proof. intros H fs. cbn. auto. Qed.

Lemma emits_rglob d pat : P (EvScan d pat true) → emits P E (path_rglob d pat).
Proof. intros H fs. cbn. auto. Qed.

Lemma emits_iterdir d : P (EvScan d "*" false) → emits P E (path_iterdir d).
Proof. intros H fs. cbn. auto. Qed.

Lemma emits_write_json p j :
  P (EvWrite p j) → E OSError → emits P E (write_json p j).
Proof. intros H He fs. unfold write_json. destruct (_ && _); cbn; auto. Qed.

Lemma emits_move src dst :
  (∀ dst', P (EvMove src dst')) → E ShutilError →
  emits P E (shutil_move src dst).
Proof.
  intros H He fs. unfold shutil_move.
  destruct (bool_decide _); [cbn; auto|].
  destruct (is_dir fs dst); [|cbn; auto]. destruct (exists_ _ _); cbn; auto.
Qed.

Lemma emits_stat_size p :
  E FileNotFoundError → emits P E (Laz.stat_size env p).
Proof. intros He fs. unfold Laz.stat_size. destruct (exists_ fs p); cbn; auto. Qed.

End EmitsEffects.

(** One structural step; the side conditions on single events and
    exceptions are left to the caller. *)
Ltac emits_step :=
  lazymatch goal with
  | |- emits _ _ (bind (ret _) _) => apply emits_bind_ret
  | |- emits _ _ (bind _ _) => apply emits_bind; [|intros ?]
  | |- emits _ _ (ret _) => apply emits_ret
  | |- emits _ _ (raise _) => apply emits_raise
  | |- emits _ _ (sys_exit _) => apply emits_raise
  | |- emits _ _ (print _) => apply emits_print
  | |- emits _ _ (read _) => apply emits_read
  | |- emits _ _ (path_exists _) => apply emits_path_exists
  | |- emits _ _ (path_glob _ _) => apply emits_glob
  | |- emits _ _ (path_rglob _ _) => apply emits_rglob
  | |- emits _ _ (path_iterdir _) => apply emits_iterdir
  | |- emits _ _ (try_except _ _) => apply emits_try
  | |- emits _ _ (mkdir _) => apply emits_mkdir
  | |- emits _ _ (write_json _ _) => apply emits_write_json
  | |- emits _ _ (shutil_move _ _) => apply emits_move; [intros ?|]
  | |- emits _ _ (Laz.stat_size _ _) => apply emits_stat_size
  | |- emits _ _ (subprocess_run_check _ _) =>
      apply emits_run_check; [intros ?| | | |intros ?]
  | |- emits _ _ (subprocess_run _ _) => apply emits_run; [intros ?| | |]
  | |- emits _ _ (if ?b then _ else _) => destruct b eqn:?
  | |- emits _ _ (match ?x with _ => _ end) => destruct x eqn:?
  end.

(* ===================================================================== *)
(** * Runs on a file given on the command line *)
(* ===================================================================== *)

#[local] Arguments Laz.docker_pipeline_cmd : simpl never.
#[local] Arguments Laz.docker_translate_cmd : simpl never.
#[local] Arguments Laz.local_pipeline_cmd : simpl never.
#[local] Arguments Laz.docker_warp_cmd : simpl never.
#[local] Arguments Laz.local_warp_cmd : simpl never.
#[local] Arguments Laz.docker_tile_cmd : simpl never.
#[local] Arguments Laz.docker_layer_cmd : simpl never.
#[local] Arguments Laz.local_info_cmd : simpl never.
#[local] Arguments Laz.docker_info_cmd : simpl never.
#[local] Arguments Laz.pdal_pipeline : simpl never.


(** An event that is no scan, no command and no write satisfies both
    descriptions; so does a scan of the output directory. *)
Ltac plain_event :=
  first [exact I
        | by (unfold raster_single_input, cloud_single_input,
                on_scans, on_commands, on_writes; cbn; auto)].

(** A command whose tool is decided by evaluation. *)
Ltac command_event :=
  unfold raster_single_input, cloud_single_input,
    on_scans, on_commands, on_writes; cbn;
  repeat split; try exact I; try (by intros [=]);
  try (intros _;
       first [ by left | by right
             | repeat first [apply list_elem_of_here
                            | apply list_elem_of_further] ]).


(** Using the description of a stage for the stage as a whole. *)
Ltac stage_wp lem :=
  eapply emits_wp; [lem|];
  let r := fresh "r" in
  intros r ? ? ? ?; destruct r as [?|[]]; cbn beta iota.

Section SingleInput.
Variable env : Env.





(** The stages of the point-cloud pipeline. *)
Lemma get_file_info_single p :
  emits (cloud_single_input env p) any_exception (Laz.get_file_info env p).
Proof.
  unfold Laz.get_file_info.
  repeat emits_step; first [plain_event | command_event].
Qed.

Lemma convert_simple_docker_single p :
  emits (cloud_single_input env p) any_exception
    (Laz.convert_laz_simple_docker env p (PROCESSED_DIR env </> "dem.tif")).
Proof.
  unfold Laz.convert_laz_simple_docker.
  repeat emits_step; first [plain_event | command_event].
Qed.

Lemma convert_docker_single p :
  emits (cloud_single_input env p) any_exception
    (Laz.convert_laz_to_dem_docker env p (PROCESSED_DIR env </> "dem.tif")).
Proof.
  unfold Laz.convert_laz_to_dem_docker.
  repeat first [apply convert_simple_docker_single | emits_step];
    first [plain_event | command_event].
Qed.

Lemma convert_pdal_single p :
  emits (cloud_single_input env p) any_exception
    (Laz.convert_laz_to_dem_pdal env p (PROCESSED_DIR env </> "dem.tif")).
Proof.
  unfold Laz.convert_laz_to_dem_pdal.
  repeat emits_step; first [plain_event | command_event].
Qed.

Lemma reproject_single p input_tif output_tif :
  emits (cloud_single_input env p) any_exception
    (Laz.reproject_to_wgs84 env input_tif output_tif).
Proof.
  unfold Laz.reproject_to_wgs84, Laz.reproject_local.
  repeat emits_step; first [plain_event | command_event].
Qed.

Lemma create_terrain_tiles_single p dem_tif :
  emits (cloud_single_input env p) any_exception
    (Laz.create_terrain_tiles env dem_tif).
Proof.
  unfold Laz.create_terrain_tiles.
  repeat emits_step; first [plain_event | command_event].
Qed.

End SingleInput.



(* ===================================================================== *)
(** * The arguments of the reprojection *)
(* ===================================================================== *)

(** A command that is no reprojection, or one that has the shape. *)
Ltac warp_event :=
  unfold on_commands, raster_warp_shape, cloud_warp_shape;
  first [ exact I
        | by intros [=]
        | intros _; do 2 eexists; reflexivity ].

Ltac emits_all :=
  repeat first [ emits_step | progress cbn beta iota ];
  try warp_event.

Section Reprojection.
Variable env : Env.

Lemma raster_reprojection argv :
  emits (on_commands raster_warp_shape) any_exception (Terrain.main env argv).
Proof.
  unfold Terrain.main, Terrain.check_dependencies, Terrain.find_input_files,
    Terrain.process_with_docker, Terrain.process_with_local_tools,
    Terrain.first_of, Terrain.verify_output.
  emits_all.
Qed.

Lemma cloud_reprojection argv :
  emits (on_commands cloud_warp_shape) any_exception (Laz.main env argv).
Proof.
  unfold Laz.main, Laz.check_dependencies, Laz.get_file_info,
    Laz.convert_laz_to_dem_docker, Laz.convert_laz_simple_docker,
    Laz.convert_laz_to_dem_pdal, Laz.reproject_to_wgs84, Laz.reproject_local,
    Laz.create_terrain_tiles.
  emits_all.
Qed.

End Reprojection.

(** C9, as stated, fails on the raster pipeline: its reprojection asks
    for EPSG:4326 and bilinear resampling but for no compression. *)
Lemma raster_reprojection_not_compressed :
  ¬ (∀ c st,
       (c, st) ∈ attempts (events (Terrain.main Demo.host_local_raster
                                     ["process_terrain.py"] Demo.fs_one_tif)) →
       tool c = Some "gdalwarp" →
       has_option "-t_srs" "EPSG:4326" c = true
       ∧ has_option "-r" "bilinear" c = true
       ∧ "-co" ∈ c).
Proof.
  intros H.
  destruct (H ["gdalwarp"; "-t_srs"; "EPSG:4326"; "-r"; "bilinear";
               "-of"; "GTiff"; "/srv/climbing-map/data/raw/north.tif";
               "/srv/climbing-map/data/processed/wgs84.tif"] (Some 0))
    as (_ & _ & Hco).
  - vm_compute. apply list_elem_of_here.
  - reflexivity.
  - repeat (apply elem_of_cons in Hco as [Hco|Hco]; [discriminate|]).
    by apply elem_of_nil in Hco.
Qed.

(** C9, amended. Every reprojection either script starts, on the
    containerized and on the local path, is [gdalwarp -t_srs EPSG:4326
    -r bilinear -of GTiff] followed by source and destination; the
    point-cloud script passes [-co COMPRESS=LZW] before them, the raster
    script passes no compression option. *)
Theorem reprojection_arguments env argv fs :
  Forall (on_commands raster_warp_shape) (events (Terrain.main env argv fs))
  ∧ Forall (on_commands cloud_warp_shape) (events (Laz.main env argv fs)).
Proof.
  split.
  - apply raster_reprojection.
  - apply cloud_reprojection.
Qed.

Lemma reprojection_arguments_witness :
  ∃ src dst,
    invoked (Laz.docker_warp_cmd (Demo.processed ++ ["dem.tif"]))
    = ["gdalwarp"; "-t_srs"; "EPSG:4326"; "-r"; "bilinear";
       "-of"; "GTiff"; "-co"; "COMPRESS=LZW"; src; dst].
Proof.
  pose proof (proj2 (reprojection_arguments Demo.host_tiling_fails
                       ["process_laz.py"; "/data/site.laz"] Demo.fs_laz))
    as Hall.
  rewrite Forall_forall in Hall.
  refine (Hall (EvRun (Laz.docker_warp_cmd (Demo.processed ++ ["dem.tif"])) 0)
            _ eq_refl).
  vm_compute.
  repeat first [apply list_elem_of_here | apply list_elem_of_further].
Defined.

(* ===================================================================== *)
(** * Failures and the exit status *)
(* ===================================================================== *)



Ltac stage_post lem :=
  eapply wp_wand; [lem|];
  let r := fresh "r" in
  intros r ? ? ?; destruct r as [?|?]; cbn beta iota.

Section ExitStatus.
Variable env : Env.


Lemma get_file_info_quiet p fs :
  wp (Laz.get_file_info env p) (λ r _ tr, quiet_stage r tr) fs.
Proof. unfold Laz.get_file_info, quiet_stage. wp_run; by cbn. Qed.

Lemma convert_docker_quiet p out fs :
  wp (Laz.convert_laz_to_dem_docker env p out) (λ r _ tr, quiet_stage r tr) fs.
Proof.
  unfold Laz.convert_laz_to_dem_docker, Laz.convert_laz_simple_docker,
    quiet_stage.
  wp_run; by cbn.
Qed.

Lemma convert_pdal_quiet p out fs :
  wp (Laz.convert_laz_to_dem_pdal env p out) (λ r _ tr, quiet_stage r tr) fs.
Proof. unfold Laz.convert_laz_to_dem_pdal, quiet_stage. wp_run; by cbn. Qed.

Lemma reproject_quiet input_tif output_tif fs :
  wp (Laz.reproject_to_wgs84 env input_tif output_tif)
     (λ r _ tr, quiet_stage r tr) fs.
Proof.
  unfold Laz.reproject_to_wgs84, Laz.reproject_local, quiet_stage.
  wp_run; by cbn.
Qed.







End ExitStatus.




(* ===================================================================== *)
(** * The conversion fallback and the dependency check *)
(* ===================================================================== *)

Section Conversion.
Variable env : Env.

(** On the containerized path the one-step translation is started exactly
    when the pipeline command exited with a status other than 0. *)
Lemma docker_conversion_attempts laz_file output_tif fs :
  let primary :=
    Laz.docker_pipeline_cmd (resolve env laz_file) (resolve env output_tif)
      (PROCESSED_DIR env </> "pipeline.json") in
  let fallback :=
    Laz.docker_translate_cmd (resolve env laz_file) (resolve env output_tif) in
  match attempts (events (Laz.convert_laz_to_dem_docker env laz_file
                            output_tif fs)) with
  | [] => True
  | [(c, st)] => c = primary ∧ (st = None ∨ st = Some 0)
  | [(c1, st1); (c2, st2)] =>
      c1 = primary ∧ c2 = fallback ∧ ∃ rc, st1 = Some rc ∧ rc ≠ 0
  | _ => False
  end.
Proof.
  cbn zeta. events_wp.
  unfold Laz.convert_laz_to_dem_docker, Laz.convert_laz_simple_docker.
  wp_run; cbn; auto;
    repeat match goal with
           | H : (_ =? 0) = false |- _ => apply Z.eqb_neq in H
           | H : (?rc =? 0) = true |- _ => apply Z.eqb_eq in H; subst rc
           end;
    repeat split; eauto.
Qed.

(** On the local path nothing but the pipeline command is ever started,
    and its failure is the failure of the conversion. *)
Lemma local_conversion_attempts laz_file output_tif fs :
  let primary :=
    Laz.local_pipeline_cmd (PROCESSED_DIR env </> "pipeline.json") in
  match attempts (events (Laz.convert_laz_to_dem_pdal env laz_file
                            output_tif fs)) with
  | [] => True
  | [(c, st)] =>
      c = primary
      ∧ ∀ rc, st = Some rc → rc ≠ 0 →
              res (Laz.convert_laz_to_dem_pdal env laz_file output_tif fs)
              = Ok false
  | _ => False
  end.
Proof.
  cbn zeta.
  pattern (events (Laz.convert_laz_to_dem_pdal env laz_file output_tif fs)),
          (res (Laz.convert_laz_to_dem_pdal env laz_file output_tif fs)).
  change (wp (Laz.convert_laz_to_dem_pdal env laz_file output_tif)
            (λ r _ tr,
               match attempts tr with
               | [] => True
               | [(c, st)] =>
                   c = Laz.local_pipeline_cmd
                         (PROCESSED_DIR env </> "pipeline.json")
                   ∧ ∀ rc, st = Some rc → rc ≠ 0 → r = Ok false
               | _ => False
               end) fs).
  unfold Laz.convert_laz_to_dem_pdal.
  wp_run; cbn; auto; split; auto; intros rc' [= <-] Hne;
    match goal with
    | H : (?rc =? 0) = true |- _ => apply Z.eqb_eq in H; congruence
    | _ => reflexivity
    end.
Qed.

End Conversion.

(** C2 at its failing input: PDAL and GDAL are installed, Docker is not,
    and [pdal pipeline] exits with status 1.  The script starts two
    subprocesses, the file summary and the pipeline; no [pdal translate]
    follows, the failure is reported and the status is 1. *)
Theorem local_conversion_has_no_fallback :
  attempts (events (Laz.main Demo.host_pdal_failing
                      ["process_laz.py"; "/data/site.laz"] Demo.fs_laz))
  = [(["pdal"; "info"; "--summary"; "/data/site.laz"], Some 0);
     (["pdal"; "pipeline"; "/srv/climbing-map/data/processed/pipeline.json"],
      Some 1)]
  ∧ reports (events (Laz.main Demo.host_pdal_failing
                       ["process_laz.py"; "/data/site.laz"] Demo.fs_laz))
    = [MsgDependencies [("Docker", false); ("PDAL", true); ("GDAL", true)];
       MsgFileInfo "site.laz" 4096; MsgToolFailed 1; MsgFailedConvert]
  ∧ exit_status (Laz.main Demo.host_pdal_failing
                   ["process_laz.py"; "/data/site.laz"] Demo.fs_laz) = 1.
Proof. repeat split; vm_compute; reflexivity. Qed.

(** C5 at its failing input: PDAL is installed, Docker and GDAL are not.
    The dependency check lets the run pass; the conversion subprocess is
    started and succeeds, and the run fails afterwards, in the
    reprojection, with status 1. *)
Theorem conversion_starts_without_gdal :
  attempts (events (Laz.main Demo.host_pdal_only
                      ["process_laz.py"; "/data/site.laz"] Demo.fs_laz))
  = [(["pdal"; "info"; "--summary"; "/data/site.laz"], Some 0);
     (["pdal"; "pipeline"; "/srv/climbing-map/data/processed/pipeline.json"],
      Some 0)]
  ∧ reports (events (Laz.main Demo.host_pdal_only
                       ["process_laz.py"; "/data/site.laz"] Demo.fs_laz))
    = [MsgDependencies [("Docker", false); ("PDAL", true); ("GDAL", false)];
       MsgFileInfo "site.laz" 4096;
       MsgDemCreated (Demo.processed ++ ["dem.tif"]);
       MsgNoGdal; MsgFailedReproject]
  ∧ exit_status (Laz.main Demo.host_pdal_only
                   ["process_laz.py"; "/data/site.laz"] Demo.fs_laz) = 1.
Proof. repeat split; vm_compute; reflexivity. Qed.

(* ===================================================================== *)
(** * Further properties: the tile server *)
(* ===================================================================== *)

Import Cover.

(** What the probes say is used where a test repeats them. *)
Ltac probes_agree :=
  exfalso;
  repeat match goal with
         | H : which ?env ?p = _, H' : context [which ?env ?p] |- _ =>
             lazymatch type of H' with
             | which env p = _ => fail
             | _ => rewrite H in H'
             end
         end;
  cbn in *; congruence.







(* ===================================================================== *)
(** * Further properties: the raster script *)
(* ===================================================================== *)

(** X3. When Docker is missing and GDAL and ctb-tile are not both
    installed, the raster script does nothing but report: two messages,
    status 1, no directory created, nothing scanned, no subprocess, the
    file system as it was, whatever the arguments. *)
Theorem raster_aborts_before_any_work env argv fs :
  which env "docker" = false →
  which env "gdalwarp" && which env "ctb-tile" = false →
  events (Terrain.main env argv fs)
  = [EvPrint (MsgDependencies
                [("Docker", false); ("GDAL", which env "gdalwarp");
                 ("ctb-tile", which env "ctb-tile")]);
     EvPrint MsgMissingTools]
  ∧ exit_status (Terrain.main env argv fs) = 1
  ∧ fs_after (Terrain.main env argv fs) = fs.
Proof.
  intros Hd Hl.
  change (wp (Terrain.main env argv)
            (λ r fs' tr,
               tr = [EvPrint (MsgDependencies
                                [("Docker", false);
                                 ("GDAL", which env "gdalwarp");
                                 ("ctb-tile", which env "ctb-tile")]);
                     EvPrint MsgMissingTools]
               ∧ status_of r = 1 ∧ fs' = fs) fs).
  unfold Terrain.main, Terrain.check_dependencies. cbn zeta.
  rewrite Hl, Hd. cbn [negb andb].
  wp_run. by cbn.
Qed.

Lemma raster_aborts_before_any_work_witness :
  exit_status (Terrain.main Demo.host_pdal_only
                 ["process_terrain.py"; "/data/site.laz"] Demo.fs_laz) = 1.
Proof.
  refine (proj1 (proj2 (raster_aborts_before_any_work Demo.host_pdal_only
                          ["process_terrain.py"; "/data/site.laz"]
                          Demo.fs_laz _ _)));
    vm_compute; reflexivity.
Defined.

(** X4. An argument that names nothing ends either script with status 1
    and the file system as it was: the raw-data directory is not created,
    nothing is scanned and no subprocess is started.  The point-cloud
    script does not even probe its tools: its only output is the report of
    the missing file. *)
Theorem missing_argument_touches_nothing env argv a fs :
  argv !! 1%nat = Some a →
  exists_ fs (Path_of_string a) = false →
  (exit_status (Terrain.main env argv fs) = 1
   ∧ fs_after (Terrain.main env argv fs) = fs
   ∧ Forall (λ e, ∃ m, e = EvPrint m) (events (Terrain.main env argv fs)))
  ∧ (exit_status (Laz.main env argv fs) = 1
     ∧ fs_after (Laz.main env argv fs) = fs
     ∧ events (Laz.main env argv fs)
       = [EvPrint (MsgFileNotFound (Path_of_string a))]).
Proof.
  intros Ha Hex.
  destruct argv as [|prog [|a' more]]; try discriminate Ha.
  injection Ha as ->. split.
  - change (wp (Terrain.main env (prog :: a :: more))
              (λ r fs' tr, status_of r = 1 ∧ fs' = fs
                           ∧ Forall (λ e, ∃ m, e = EvPrint m) tr) fs).
    unfold Terrain.main, Terrain.check_dependencies.
    cbn [length Nat.ltb Nat.leb lookup list_lookup default id].
    wp_run; cbn; repeat split; repeat apply Forall_cons_2;
      try apply Forall_nil_2; eauto.
  - change (wp (Laz.main env (prog :: a :: more))
              (λ r fs' tr, status_of r = 1 ∧ fs' = fs
                           ∧ tr = [EvPrint (MsgFileNotFound
                                              (Path_of_string a))]) fs).
    unfold Laz.main.
    cbn [length Nat.ltb Nat.leb lookup list_lookup default id].
    wp_run; by cbn.
Qed.

Lemma missing_argument_touches_nothing_witness :
  events (Laz.main Demo.host_pdal_only ["process_laz.py"; "/data/gone.laz"]
            Demo.fs_laz)
  = [EvPrint (MsgFileNotFound (Path_of_string "/data/gone.laz"))].
Proof.
  refine (proj2 (proj2 (proj2
    (missing_argument_touches_nothing Demo.host_pdal_only
       ["process_laz.py"; "/data/gone.laz"] "/data/gone.laz" Demo.fs_laz
       eq_refl _)))).
  vm_compute. reflexivity.
Defined.

Section RasterMain.
Variable env : Env.

Ltac unfold_raster :=
  unfold Terrain.main, Terrain.check_dependencies, Terrain.find_input_files,
    Terrain.process_with_docker, Terrain.process_with_local_tools,
    Terrain.first_of, Terrain.verify_output.

(** X5. The branch of [process_with_local_tools] that warns about a
    missing ctb-tile cannot be reached from [main]: without Docker the
    dependency check has already required ctb-tile, so the warning is never
    printed. *)
Theorem ctb_warning_is_unreachable argv fs :
  MsgCtbTileMissing ∉ reports (events (Terrain.main env argv fs)).
Proof.
  events_wp. unfold_raster.
  wp_run; cbn; rewrite ?app_nil_r;
    first [ probes_agree
          | intros Hin;
            repeat (apply elem_of_cons in Hin as [Hin|Hin]; [discriminate|]);
            by apply elem_of_nil in Hin ].
Qed.

(** X6. The exit status of the raster script is 0 or 1, and it is 0
    exactly when ctb-tile has run twice with status 0 (the tiles, then the
    layer description).  What [verify_output] finds afterwards does not
    enter: a run whose tools all succeed exits with status 0 even when no
    [layer.json] is there. *)
Theorem raster_exit_status argv fs :
  (exit_status (Terrain.main env argv fs) = 0
   ∨ exit_status (Terrain.main env argv fs) = 1)
  ∧ (exit_status (Terrain.main env argv fs) = 0
     ↔ length (List.filter tiled_ok (events (Terrain.main env argv fs)))
       = 2%nat).
Proof.
  unfold exit_status.
  pattern (events (Terrain.main env argv fs)), (res (Terrain.main env argv fs)).
  change (wp (Terrain.main env argv)
            (λ r _ tr,
               (status_of r = 0 ∨ status_of r = 1)
               ∧ (status_of r = 0
                  ↔ length (List.filter Cover.tiled_ok tr) = 2%nat)) fs).
  unfold_raster.
  wp_run;
    first [ probes_agree
          | repeat match goal with
                   | H : ?rc ≠ 0 |- _ =>
                       apply Z.eqb_neq in H
                   end;
            cbn; rewrite ?app_nil_r;
            repeat match goal with
                   | H : (_ =? 0) = false |- _ => rewrite ?H
                   end;
            vm_compute; repeat split; first [by left | by right | done
                                            | by intros [=] | lia ] ].
Qed.
End RasterMain.

Section RasterStrategy.
Variable env : Env.

Ltac container_event :=
  unfold on_commands, containerized;
  first [ exact I | reflexivity | by intros [=] | discriminate ].

(** X7. The raster script picks one execution path for the whole run:
    with Docker installed every subprocess is a [docker run], also when
    GDAL and ctb-tile are installed as well; without Docker none is. *)
Theorem raster_uses_one_strategy argv fs :
  (which env "docker" = true →
   Forall (on_commands containerized) (events (Terrain.main env argv fs)))
  ∧ (which env "docker" = false →
     Forall (on_commands (λ c, ¬ containerized c))
       (events (Terrain.main env argv fs))).
Proof.
  split; intros Hd; events_wp;
    unfold Terrain.main, Terrain.check_dependencies,
      Terrain.find_input_files, Terrain.process_with_docker,
      Terrain.process_with_local_tools, Terrain.first_of,
      Terrain.verify_output;
    wp_run; cbn [app]; rewrite ?app_nil_r;
    repeat first [ apply Forall_nil_2
                 | apply Forall_cons_2; [container_event|] ].
Qed.

End RasterStrategy.

Lemma raster_uses_one_strategy_witness :
  Forall (on_commands containerized)
    (events (Terrain.main Demo.host_docker_raster ["process_terrain.py"]
               Demo.fs_one_tif))
  ∧ Forall (on_commands (λ c, ¬ containerized c))
      (events (Terrain.main Demo.host_local_raster ["process_terrain.py"]
                 Demo.fs_one_tif)).
Proof.
  split.
  - refine (proj1 (raster_uses_one_strategy Demo.host_docker_raster
                     ["process_terrain.py"] Demo.fs_one_tif) _).
    vm_compute. reflexivity.
  - refine (proj2 (raster_uses_one_strategy Demo.host_local_raster
                     ["process_terrain.py"] Demo.fs_one_tif) _).
    vm_compute. reflexivity.
Defined.

(** ** The search for rasters *)


Lemma reports_app tr1 tr2 : reports (tr1 ++ tr2) = reports tr1 ++ reports tr2.
Proof. unfold reports. apply omap_app. Qed.


Lemma mkdir_from_is_dir done todo fs fs' :
  mkdir_from done todo fs = Some fs' →
  is_dir fs done = true →
  is_dir fs' (done ++ todo) = true.
Proof.
  revert done fs. induction todo as [|c r IH]; intros done fs Hmk Hd; cbn in Hmk.
  - simplify_eq. by rewrite app_nil_r.
  - rewrite (assoc_L (++) done [c] r : done ++ c :: r = (done ++ [c]) ++ r).
    destruct (lookup_path fs (done ++ [c])) as [[|d]|] eqn:E; [|done|].
    + apply (IH _ _ Hmk). unfold is_dir. by rewrite E.
    + apply (IH _ _ Hmk). unfold is_dir, lookup_path.
      destruct (is_root (done ++ [c])); [done|]. by rewrite lookup_insert_eq.
Qed.

Lemma mkdir_parents_is_dir p fs fs' :
  mkdir_parents p fs = Some fs' → is_dir fs' p = true.
Proof. intros H. by apply (mkdir_from_is_dir [] p fs fs'). Qed.

Lemma glob_after_mkdir fs fs' d pat p :
  mkdir_parents d fs = Some fs' → p ∈ glob fs' d pat ↔ p ∈ glob fs d pat.
Proof.
  intros Hmk. rewrite !elem_of_glob. split; intros (Hs & Hc & Hm).
  - by rewrite (mkdir_parents_lookup d fs fs' p Hmk (child_not_prefix _ _ Hc))
      in Hs.
  - by rewrite (mkdir_parents_lookup d fs fs' p Hmk (child_not_prefix _ _ Hc)).
Qed.

Section RasterSearch.
Variable env : Env.

Lemma find_input_files_result fs :
  wp (Terrain.find_input_files env)
     (λ r fs' tr,
        attempts tr = []
        ∧ match r with
          | Ok l =>
              mkdir_parents (RAW_DATA_DIR env) fs = Some fs'
              ∧ l = raw_listing env fs "*.tif" "*.tiff"
              ∧ (l = [] ↔ MsgNoInputFound (RAW_DATA_DIR env) ∈ reports tr)
          | Raised e => e = OSError ∧ fs' = fs
          end) fs.
Proof.
  unfold Terrain.find_input_files, raw_listing.
  wp_step. wp_step; [|by cbn].
  rewrite H. do 4 wp_step.
  destruct (glob fs' (RAW_DATA_DIR env) "*.tif"
            ++ glob fs' (RAW_DATA_DIR env) "*.tiff") as [|f l] eqn:E.
  - wp_run. cbn. repeat split; auto. intros _. apply list_elem_of_here.
  - wp_run. cbn. repeat split; auto; [done|].
    intros Hin. apply elem_of_cons in Hin as [Hin|Hin]; [discriminate|].
    by apply elem_of_nil in Hin.
Qed.

(** X8. [find_input_files] makes sure the raw-data directory exists and
    returns exactly its entries named [*.tif] or [*.tiff] (a directory of
    such a name included); it reports "no input" exactly when it returns
    the empty list, and starts no subprocess.  It can only fail when the
    directory cannot be created, and then changes nothing. *)
Theorem find_input_files_lists_rasters fs :
  attempts (events (Terrain.find_input_files env fs)) = []
  ∧ match res (Terrain.find_input_files env fs) with
    | Ok l =>
        is_dir (fs_after (Terrain.find_input_files env fs))
          (RAW_DATA_DIR env) = true
        ∧ (∀ p, p ∈ l ↔
                is_Some (fs !! p)
                ∧ is_child (RAW_DATA_DIR env) p = true
                ∧ (endswith (name p) ".tif" = true
                   ∨ endswith (name p) ".tiff" = true))
        ∧ (l = [] ↔
           MsgNoInputFound (RAW_DATA_DIR env)
             ∈ reports (events (Terrain.find_input_files env fs)))
    | Raised e =>
        e = OSError ∧ fs_after (Terrain.find_input_files env fs) = fs
    end.
Proof.
  pose proof (find_input_files_result fs) as H. unfold wp in H.
  destruct H as [Hatt Hres]. split; [done|].
  destruct (res (Terrain.find_input_files env fs)) as [l|e]; [|done].
  destruct Hres as (Hmk & -> & Hrep). split; [|split; [|done]].
  - by apply mkdir_parents_is_dir in Hmk.
  - intros p. unfold raw_listing. rewrite Hmk, elem_of_app.
    rewrite !(glob_after_mkdir fs _ _ _ p Hmk), !elem_of_glob.
    change (fnmatch "*.tif" (name p)) with (endswith (name p) ".tif").
    change (fnmatch "*.tiff" (name p)) with (endswith (name p) ".tiff").
    tauto.
Qed.

End RasterSearch.


(* ===================================================================== *)
(** * Further properties: the stages of the point-cloud script *)
(* ===================================================================== *)

Section CloudStages.
Variable env : Env.


(** X11. [reproject_to_wgs84] tries the containerized gdalwarp first and
    the local one only when Docker is missing or left no [wgs84.tif]
    beside the input; with neither tool it starts nothing. *)
Theorem reprojection_tries_docker_then_local input_tif output_tif fs :
  match attempts (events (Laz.reproject_to_wgs84 env input_tif output_tif fs))
  with
  | [] =>
      (which env "docker" = false ∧ which env "gdalwarp" = false
       ∧ res (Laz.reproject_to_wgs84 env input_tif output_tif fs) = Ok false
       ∧ fs_after (Laz.reproject_to_wgs84 env input_tif output_tif fs) = fs)
  | [(c, Some _)] =>
      (which env "docker" = true
       ∧ c = Laz.docker_warp_cmd (resolve env input_tif))
      ∨ (which env "docker" = false ∧ which env "gdalwarp" = true
         ∧ c = Laz.local_warp_cmd input_tif output_tif)
  | [(c1, Some _); (c2, Some _)] =>
      which env "docker" = true ∧ which env "gdalwarp" = true
      ∧ c1 = Laz.docker_warp_cmd (resolve env input_tif)
      ∧ c2 = Laz.local_warp_cmd input_tif output_tif
  | _ => False
  end.
Proof.
  pattern (events (Laz.reproject_to_wgs84 env input_tif output_tif fs)),
          (res (Laz.reproject_to_wgs84 env input_tif output_tif fs)),
          (fs_after (Laz.reproject_to_wgs84 env input_tif output_tif fs)).
  change (wp (Laz.reproject_to_wgs84 env input_tif output_tif)
            (λ r fs' tr,
               match attempts tr with
               | [] =>
                   (which env "docker" = false ∧ which env "gdalwarp" = false
                    ∧ r = Ok false ∧ fs' = fs)
               | [(c, Some _)] =>
                   (which env "docker" = true
                    ∧ c = Laz.docker_warp_cmd (resolve env input_tif))
                   ∨ (which env "docker" = false ∧ which env "gdalwarp" = true
                      ∧ c = Laz.local_warp_cmd input_tif output_tif)
               | [(c1, Some _); (c2, Some _)] =>
                   which env "docker" = true ∧ which env "gdalwarp" = true
                   ∧ c1 = Laz.docker_warp_cmd (resolve env input_tif)
                   ∧ c2 = Laz.local_warp_cmd input_tif output_tif
               | _ => False
               end) fs).
  unfold Laz.reproject_to_wgs84, Laz.reproject_local.
  wp_run; cbn; auto 10.
Qed.



End CloudStages.




(* ===================================================================== *)
(** * Further properties: the point-cloud script as a whole *)
(* ===================================================================== *)

Section CloudMain.
Variable env : Env.

Lemma create_terrain_tiles_done dem_tif fs :
  wp (Laz.create_terrain_tiles env dem_tif)
     (λ r _ tr,
        match r with
        | Ok _ =>
            which env "docker" = true
            ∧ ∃ rc, EvRun (Laz.docker_layer_cmd env (resolve env dem_tif)) rc
                    ∈ tr
        | Raised e => is_Exception e = true
        end) fs.
Proof.
  unfold Laz.create_terrain_tiles.
  wp_run; cbn; try done; (split; [done|]); eexists;
    repeat first [apply list_elem_of_here | apply list_elem_of_further].
Qed.

Lemma cloud_status argv fs :
  wp (Laz.main env argv)
     (λ r _ tr,
        (status_of r = 0 ∨ status_of r = 1)
        ∧ (status_of r = 0 →
           which env "docker" = true
           ∧ ∃ rc, EvRun (Laz.docker_layer_cmd env
                            (resolve env (PROCESSED_DIR env </> "wgs84.tif")))
                     rc ∈ tr)) fs.
Proof.
  unfold Laz.main, Laz.check_dependencies.
  wp_exec;
    repeat (stage_post ltac:(first
              [ apply get_file_info_quiet | apply convert_docker_quiet
              | apply convert_pdal_quiet | apply reproject_quiet
              | apply create_terrain_tiles_done ]);
            unfold quiet_stage in *; cbn beta iota in *;
            repeat match goal with H : _ ∧ _ |- _ => destruct H end;
            wp_exec).
  all: cbn [status_of];
    repeat match goal with e : PyExc |- _ => destruct e; try done end;
    (split; [first [by left | by right]|]); intros Hs; try done.
  all: match goal with H : ∃ _, _ |- _ => destruct H as [rc Hrc] end;
    (split; [done|]); exists rc; set_solver.
Qed.

(** X14. Without Docker the point-cloud script cannot succeed, whatever
    else is installed: local PDAL and GDAL carry it through conversion and
    reprojection, but the tiling goes through Docker unconditionally, so
    every run ends with status 1. *)
Theorem cloud_needs_docker argv fs :
  which env "docker" = false → exit_status (Laz.main env argv fs) = 1.
Proof.
  intros Hd. destruct (cloud_status argv fs) as [[H0|H1] Hok]; [|done].
  destruct (Hok H0) as [Hd' _]. congruence.
Qed.

(** X15. The exit status of the point-cloud script is 0 or 1, and it is
    0 only after the [layer.json] command of ctb-tile has been run on the
    reprojected raster. *)
Theorem cloud_success_means_tiled argv fs :
  (exit_status (Laz.main env argv fs) = 0
   ∨ exit_status (Laz.main env argv fs) = 1)
  ∧ (exit_status (Laz.main env argv fs) = 0 →
     ∃ rc, EvRun (Laz.docker_layer_cmd env
                    (resolve env (PROCESSED_DIR env </> "wgs84.tif"))) rc
           ∈ events (Laz.main env argv fs)).
Proof.
  destruct (cloud_status argv fs) as [H01 Hok]. split; [done|].
  intros H0. by destruct (Hok H0).
Qed.

End CloudMain.

Lemma cloud_needs_docker_witness :
  exit_status (Laz.main host_local_complete
                 ["process_laz.py"; "/data/site.laz"] Demo.fs_laz) = 1.
Proof.
  refine (cloud_needs_docker host_local_complete
            ["process_laz.py"; "/data/site.laz"] Demo.fs_laz _).
  vm_compute. reflexivity.
Defined.

Lemma cloud_success_means_tiled_witness :
  ∃ rc, EvRun (Laz.docker_layer_cmd Demo.host_tiling_fails
                 (resolve Demo.host_tiling_fails
                    (PROCESSED_DIR Demo.host_tiling_fails </> "wgs84.tif")))
          rc
        ∈ events (Laz.main Demo.host_tiling_fails
                    ["process_laz.py"; "/data/site.laz"] Demo.fs_laz).
Proof.
  refine (proj2 (cloud_success_means_tiled Demo.host_tiling_fails
                   ["process_laz.py"; "/data/site.laz"] Demo.fs_laz) _).
  vm_compute. reflexivity.
Defined.

Lemma parent_joinpath p c : is_anchor c = false → parent (p </> c) = p.
Proof.
  intros Hc. unfold joinpath, parent.
  destruct p as [|a p']; [cbn; by rewrite Hc|].
  change ((a :: p') ++ [c]) with (a :: (p' ++ [c])).
  destruct (p' ++ [c]) as [|b l] eqn:E; [by destruct p'|].
  rewrite <- E. apply (removelast_last (a :: p') c).
Qed.

Lemma cloud_single_works env p e :
  cloud_single_input env p e → cloud_works_on env p e.
Proof.
  unfold cloud_single_input, cloud_works_on.
  destruct e; cbn; tauto.
Qed.

Section CloudSelection.
Variable env : Env.

Ltac works_leaf :=
  cbn [app]; rewrite ?app_nil_r;
  repeat first
    [ assumption
    | apply Forall_nil_2
    | apply Forall_cons_2; [by (unfold cloud_works_on; cbn)|]
    | apply Forall_app_2 ].

(** X16. Started without an argument, the point-cloud script works on
    one file only, the first entry of what it finds in the raw-data
    directory ([*.laz] before [*.las]): it names that file, and every PDAL
    command and every pipeline description of the run is built from it,
    however many other point clouds are there. *)
Theorem cloud_takes_the_first_file argv fs f others :
  (length argv ≤ 1)%nat →
  raw_listing env fs "*.laz" "*.las" = f :: others →
  EvPrint (MsgFound f) ∈ events (Laz.main env argv fs)
  ∧ Forall (cloud_works_on env f) (events (Laz.main env argv fs)).
Proof.
  intros Hargv Hlist.
  pattern (events (Laz.main env argv fs)).
  apply (wp_events (Laz.main env argv)
           (λ tr, EvPrint (MsgFound f) ∈ tr ∧ Forall (cloud_works_on env f) tr)).
  unfold Laz.main, Laz.check_dependencies, raw_listing in *.
  assert ((length argv <? 2)%nat = true) as -> by (apply Nat.ltb_lt; lia).
  do 3 wp_step; [|by rewrite H in Hlist].
  rewrite H in Hlist. do 4 wp_step. rewrite Hlist.
  wp_exec;
    repeat (stage_wp ltac:(first
              [ apply (get_file_info_single env f)
              | apply (convert_docker_single env f)
              | apply (convert_pdal_single env f)
              | apply (reproject_single env f)
              | apply (create_terrain_tiles_single env f) ]);
            wp_exec).
  all: repeat match goal with
              | H : Forall (cloud_single_input _ _) _ |- _ =>
                  apply (λ H', Forall_impl _ _ _ H' (cloud_single_works env f))
                    in H
              end.
  all: split; [set_solver|works_leaf].
Qed.
End CloudSelection.

Lemma cloud_takes_the_first_file_witness :
  EvPrint (MsgFound (Demo.raw ++ ["a.laz"]))
    ∈ events (Laz.main Demo.host_pdal_only ["process_laz.py"] fs_two_clouds).
Proof.
  refine (proj1 (cloud_takes_the_first_file Demo.host_pdal_only
                   ["process_laz.py"] fs_two_clouds
                   (Demo.raw ++ ["a.laz"]) [Demo.raw ++ ["b.las"]] _ _)).
  - cbn. lia.
  - vm_compute. reflexivity.
Defined.

(* ===================================================================== *)
(** * Further properties: what the scripts do to the file system *)
(* ===================================================================== *)

(** A file-system action that the footprint lists. *)
Ltac footprint_event :=
  unfold raster_footprint, cloud_footprint; cbn zeta;
  rewrite ?parent_joinpath by reflexivity;
  first [ exact I
        | reflexivity
        | repeat first [apply list_elem_of_here | apply list_elem_of_further] ].

Ltac footprint_all :=
  repeat first [ emits_step | progress cbn beta iota ];
  try footprint_event.

Section Footprint.
Variable env : Env.

(** X17. Whatever the host and the file system, the raster script itself
    changes the file system only by creating its three directories (raw
    data, processed, tile output): it writes no file and moves none.
    Everything else that changes is the work of the tools it starts. *)
Theorem raster_script_only_creates_directories argv fs :
  Forall (raster_footprint env) (events (Terrain.main env argv fs)).
Proof.
  assert (emits (raster_footprint env) any_exception (Terrain.main env argv))
    as H; [|exact (proj1 (H fs))].
  unfold Terrain.main, Terrain.check_dependencies, Terrain.find_input_files,
    Terrain.process_with_docker, Terrain.process_with_local_tools,
    Terrain.first_of, Terrain.verify_output.
  footprint_all.
Qed.

(** X18. The point-cloud script itself creates only its three directories
    and the directory of the resolved DEM path, writes only
    [pipeline.json] in the processed directory, and moves only
    [output.tif], [dem.tif] or [wgs84.tif] out of the directory of the
    resolved DEM path. *)
Theorem cloud_script_footprint argv fs :
  Forall (cloud_footprint env) (events (Laz.main env argv fs)).
Proof.
  assert (emits (cloud_footprint env) any_exception (Laz.main env argv))
    as H; [|exact (proj1 (H fs))].
  unfold Laz.main, Laz.check_dependencies, Laz.get_file_info,
    Laz.convert_laz_to_dem_docker, Laz.convert_laz_simple_docker,
    Laz.convert_laz_to_dem_pdal, Laz.reproject_to_wgs84, Laz.reproject_local,
    Laz.create_terrain_tiles.
  footprint_all.
Qed.

End Footprint.

(* ===================================================================== *)
(** * Further properties: where the point-cloud script runs its tools *)
(* ===================================================================== *)

(** A command that runs in a container, or one of the two helpers. *)
Ltac helper_event :=
  unfold on_commands, contained_or_helper, containerized;
  first [ exact I
        | by left
        | by (right; left)
        | by (right; right; eexists) ].

Section CloudStrategy.
Variable env : Env.

Lemma get_file_info_contained p :
  emits (on_commands contained_or_helper) any_exception
    (Laz.get_file_info env p).
Proof. unfold Laz.get_file_info. repeat emits_step; helper_event. Qed.

Lemma convert_docker_contained p out :
  emits (on_commands contained_or_helper) any_exception
    (Laz.convert_laz_to_dem_docker env p out).
Proof.
  unfold Laz.convert_laz_to_dem_docker, Laz.convert_laz_simple_docker.
  repeat emits_step; helper_event.
Qed.

Lemma reproject_contained input_tif output_tif :
  emits (on_commands contained_or_helper) any_exception
    (Laz.reproject_to_wgs84 env input_tif output_tif).
Proof.
  unfold Laz.reproject_to_wgs84, Laz.reproject_local.
  repeat emits_step; helper_event.
Qed.

Lemma create_terrain_tiles_contained dem_tif :
  emits (on_commands contained_or_helper) any_exception
    (Laz.create_terrain_tiles env dem_tif).
Proof. unfold Laz.create_terrain_tiles. repeat emits_step; helper_event. Qed.

(** X19. With Docker installed the point-cloud script converts and tiles
    in containers only, also when PDAL is installed locally: a local
    [pdal pipeline] or [pdal translate] is never started.  The only
    commands it starts outside a container are the [pdal info] summary and
    the [gdalwarp] retried after the containerized reprojection left no
    result. *)
Theorem cloud_prefers_containers argv fs :
  which env "docker" = true →
  Forall (on_commands contained_or_helper) (events (Laz.main env argv fs)).
Proof.
  intros Hd. events_wp.
  unfold Laz.main, Laz.check_dependencies.
  wp_run;
    repeat (try (exfalso; cbn [Laz.docker] in *; congruence);
            stage_wp ltac:(first
              [ apply get_file_info_contained
              | apply convert_docker_contained
              | apply reproject_contained
              | apply create_terrain_tiles_contained ]);
            wp_run).
  all: cbn [app]; rewrite ?app_nil_r;
    repeat first
      [ assumption
      | apply Forall_nil_2
      | apply Forall_cons_2; [exact I|]
      | apply Forall_app_2 ].
Qed.

End CloudStrategy.

Lemma cloud_prefers_containers_witness :
  Forall (on_commands contained_or_helper)
    (events (Laz.main host_all_fail ["process_laz.py"; "/data/site.laz"]
               Demo.fs_laz)).
Proof.
  apply (cloud_prefers_containers host_all_fail). reflexivity.
Defined.

(* ===================================================================== *)
(** * Further properties: the downloader *)
(* ===================================================================== *)

(** Programs of the downloader that leave the file system alone. *)
Section KeepsDisk.
Context {A B : Type}.

Lemma keeps_ret (a : A) fs : Download.disk (Download.ret a fs) = fs.
Proof. done. Qed.


End KeepsDisk.






(** ** Symbolic execution of the downloader *)

Section DownloadRules.
Context {A B : Type}.

Lemma dl_bind (m : Download.M A) (k : A → Download.M B)
    (Q : Download.Exc + B → FS → list Download.Line → Prop) (fs : FS) :
  Download.wp m
    (λ r fs1 out1,
       match r with
       | inr a =>
           Download.wp (k a) (λ r' fs2 out2, Q r' fs2 (out1 ++ out2)) fs1
       | inl e => Q (inl e) fs1 out1
       end) fs →
  Download.wp (Download.bind m k) Q fs.
Proof.
  unfold Download.wp, Download.bind.
  by destruct (Download.result (m fs)).
Qed.

Lemma dl_try (body : Download.M A) (handler : Download.Exc → Download.M A)
    (Q : Download.Exc + A → FS → list Download.Line → Prop) (fs : FS) :
  Download.wp body
    (λ r fs1 out1,
       match r with
       | inr a => Q (inr a) fs1 out1
       | inl e =>
           Download.wp (handler e)
             (λ r' fs2 out2, Q r' fs2 (out1 ++ out2)) fs1
       end) fs →
  Download.wp (Download.try_except body handler) Q fs.
Proof.
  unfold Download.wp, Download.try_except.
  destruct (Download.result (body fs)) eqn:E; [done|].
  by rewrite E.
Qed.

Lemma dl_ret (a : A) (Q : Download.Exc + A → FS → list Download.Line → Prop) (fs : FS) :
  Q (inr a) fs [] → Download.wp (Download.ret a) Q fs.
Proof. done. Qed.

Lemma dl_raise (e : Download.Exc)
    (Q : Download.Exc + A → FS → list Download.Line → Prop) (fs : FS) :
  Q (inl e) fs [] → Download.wp (Download.raise e) Q fs.
Proof. done. Qed.
End DownloadRules.

Lemma dl_print (l : Download.Line) (Q : Download.Exc + unit → FS → list Download.Line → Prop) (fs : FS) :
  Q (inr tt) fs [l] → Download.wp (Download.print l) Q fs.
Proof. done. Qed.

Lemma dl_get (h : Download.Host) (q : Download.Query)
    (Q : Download.Exc + Download.Response → FS → list Download.Line → Prop) (fs : FS) :
  match Download.requests_get h q with
  | Some r => Q (inr r) fs []
  | None => Q (inl Download.RequestException) fs []
  end →
  Download.wp (Download.get h q) Q fs.
Proof.
  unfold Download.wp, Download.get. by destruct (Download.requests_get h q).
Qed.

Lemma dl_response_json (r : Download.Response)
    (Q : Download.Exc + Download.Value → FS → list Download.Line → Prop) (fs : FS) :
  match Download.json r with
  | Some v => Q (inr v) fs []
  | None => Q (inl Download.JSONDecodeError) fs []
  end →
  Download.wp (Download.response_json r) Q fs.
Proof.
  unfold Download.wp, Download.response_json. by destruct (Download.json r).
Qed.

Lemma dl_dict_get (fields : list (string * Download.Value)) (k : string) (d : Download.Value)
    (Q : Download.Exc + Download.Value → FS → list Download.Line → Prop) (fs : FS) :
  Q (inr (default d (Download.assoc k fields))) fs [] →
  Download.wp (Download.dict_get (Download.VDict fields) k d) Q fs.
Proof. done. Qed.

Lemma dl_save_stream (p : Path) (r : Download.Response)
    (Q : Download.Exc + unit → FS → list Download.Line → Prop) (fs : FS) :
  (if is_dir fs (parent p) && negb (is_dir fs p) then
     if Download.interrupted r then
       Q (inl Download.ChunkedEncodingError)
         (<[p := File (Blob (Download.received r))]> fs) []
     else Q (inr tt) (<[p := File (Blob (Download.received r))]> fs) []
   else Q (inl Download.OSError) fs []) →
  Download.wp (Download.save_stream p r) Q fs.
Proof.
  unfold Download.wp, Download.save_stream.
  destruct (is_dir fs (parent p) && negb (is_dir fs p)); [|done].
  by destruct (Download.interrupted r).
Qed.

Lemma dl_mkdir (p : Path) (Q : Download.Exc + unit → FS → list Download.Line → Prop) (fs : FS) :
  match mkdir_parents p fs with
  | Some fs' => Q (inr tt) fs' []
  | None => Q (inl Download.OSError) fs []
  end →
  Download.wp (Download.mkdir p) Q fs.
Proof.
  unfold Download.wp, Download.mkdir. by destruct (mkdir_parents p fs).
Qed.

Lemma dl_wand {A : Type} (m : Download.M A)
    (Q Q' : Download.Exc + A → FS → list Download.Line → Prop) (fs : FS) :
  Download.wp m Q fs → (∀ r fs' out, Q r fs' out → Q' r fs' out) →
  Download.wp m Q' fs.
Proof. unfold Download.wp. auto. Qed.

Ltac dl_step :=
  lazymatch goal with
  | |- Download.wp (Download.bind _ _) _ _ => apply dl_bind
  | |- Download.wp (Download.try_except _ _) _ _ => apply dl_try
  | |- Download.wp (Download.ret _) _ _ => apply dl_ret
  | |- Download.wp (Download.raise _) _ _ => apply dl_raise
  | |- Download.wp (Download.print _) _ _ => apply dl_print
  | |- Download.wp (Download.get _ _) _ _ => apply dl_get
  | |- Download.wp (Download.response_json _) _ _ => apply dl_response_json
  | |- Download.wp (Download.dict_get (Download.VDict _) _ _) _ _ =>
      apply dl_dict_get
  | |- Download.wp (Download.save_stream _ _) _ _ => apply dl_save_stream
  | |- Download.wp (Download.mkdir _) _ _ => apply dl_mkdir
  end; cbn beta iota.



Lemma name_joinpath p c : is_anchor c = false → name (p </> c) = c.
Proof. intros Hc. unfold name, joinpath. by rewrite last_snoc, Hc. Qed.

Lemma cdem_file_parent h :
  parent (Download.cdem_file h) = Download.OUTPUT_DIR h.
Proof. unfold Download.cdem_file. by apply parent_joinpath. Qed.

(** What [download_cdem_fallback] does, case by case. *)
Lemma download_cdem_cases h fs :
  Download.wp (Download.download_cdem_fallback h)
    (λ res fs' out,
       match Download.requests_get h (Download.cdem_query) with
       | None =>
           res = inr None ∧ fs' = fs
           ∧ out = [Download.LDownloading;
                    Download.LError Download.RequestException]
       | Some r =>
           if Download.ok r then
             if is_dir fs (Download.OUTPUT_DIR h)
                && negb (is_dir fs (Download.cdem_file h)) then
               fs' = <[Download.cdem_file h
                       := File (Blob (Download.received r))]> fs
               ∧ if Download.interrupted r then
                   res = inr None
                   ∧ out = [Download.LDownloading;
                            Download.LError Download.ChunkedEncodingError]
                 else
                   res = inr (Some (str (Download.cdem_file h)))
                   ∧ out = [Download.LDownloading;
                            Download.LDownloaded (Download.cdem_file h)]
             else
               res = inr None ∧ fs' = fs
               ∧ out = [Download.LDownloading;
                        Download.LError Download.OSError]
           else
             res = inr None ∧ fs' = fs
             ∧ out = [Download.LDownloading;
                      Download.LDownloadFailed (Download.status_code r)]
       end) fs.
Proof.
  unfold Download.download_cdem_fallback.
  repeat dl_step.
  destruct (Download.requests_get h _) as [r|]; [|by repeat dl_step].
  destruct (Download.ok r); [|by repeat dl_step].
  repeat dl_step. rewrite cdem_file_parent.
  destruct (is_dir fs (Download.OUTPUT_DIR h) && _); [|by repeat dl_step].
  destruct (Download.interrupted r); by repeat dl_step.
Qed.

(** X20. In [cdem] mode the downloader returns a path exactly when the
    elevation service answered without an error status, the raw-data
    directory exists, the target is no directory and the stream arrived
    whole; the path is then that of [cdem_squamish.tif] in the raw-data
    directory, which holds every byte received, and nothing else on the
    file system has changed. *)
Theorem cdem_returns_a_path_for_a_complete_file h fs s :
  (Download.result (Download.download_cdem_fallback h fs) = inr (Some s)
   ↔ s = str (Download.cdem_file h)
     ∧ ∃ r, Download.requests_get h Download.cdem_query = Some r
            ∧ Download.ok r = true
            ∧ Download.interrupted r = false
            ∧ is_dir fs (Download.OUTPUT_DIR h) = true
            ∧ is_dir fs (Download.cdem_file h) = false)
  ∧ ∀ r, Download.requests_get h Download.cdem_query = Some r →
         Download.result (Download.download_cdem_fallback h fs)
         = inr (Some s) →
         Download.disk (Download.download_cdem_fallback h fs)
         = <[Download.cdem_file h := File (Blob (Download.received r))]> fs.
Proof.
  pose proof (download_cdem_cases h fs) as H. unfold Download.wp in H.
  assert (Hsome : Download.result (Download.download_cdem_fallback h fs)
                  = inr (Some s) →
                  s = str (Download.cdem_file h)
                  ∧ ∃ r, Download.requests_get h Download.cdem_query = Some r
                         ∧ Download.ok r = true
                         ∧ Download.interrupted r = false
                         ∧ is_dir fs (Download.OUTPUT_DIR h) = true
                         ∧ is_dir fs (Download.cdem_file h) = false
                         ∧ Download.disk (Download.download_cdem_fallback h fs)
                           = <[Download.cdem_file h
                               := File (Blob (Download.received r))]> fs).
  { intros Hs.
    destruct (Download.requests_get h _) as [r|];
      [|destruct H as [H _]; congruence].
    destruct (Download.ok r) eqn:Eok; [|destruct H as [H _]; congruence].
    destruct (is_dir fs (Download.OUTPUT_DIR h)) eqn:Ed;
      [|destruct H as [H _]; congruence].
    destruct (is_dir fs (Download.cdem_file h)) eqn:Ef;
      [destruct H as [H _]; congruence|].
    cbn [andb negb] in H. destruct H as [Hdisk H].
    destruct (Download.interrupted r) eqn:Ei; destruct H as [H _];
      [congruence|].
    rewrite H in Hs. injection Hs as <-. split; [done|]. by exists r. }
  split; [split|].
  - intros Hs. destruct (Hsome Hs) as (-> & r & ? & ? & ? & ? & ? & _).
    split; [done|]. by exists r.
  - intros (-> & r & Hget & Hok & Hi & Hd & Hf).
    rewrite Hget, Hok, Hd, Hf, Hi in H. by destruct H as (_ & H & _).
  - intros r Hget Hs. destruct (Hsome Hs) as (_ & r' & ? & _ & _ & _ & _ & ->).
    congruence.
Qed.

(** X21. The [cdem] mode never creates the raw-data directory: started
    in a checkout where it is missing, the downloader saves nothing and
    still ends normally, whatever the elevation service sends; when the
    service did send the raster, the failure to open the file is the
    error it prints. *)
Theorem cdem_mode_never_creates_the_directory h prog more fs :
  is_dir fs (Download.OUTPUT_DIR h) = false →
  Download.disk (Download.main h (prog :: "cdem" :: more) fs) = fs
  ∧ Download.result (Download.main h (prog :: "cdem" :: more) fs) = inr tt
  ∧ ∀ r, Download.requests_get h Download.cdem_query = Some r →
         Download.ok r = true →
         Download.printed (Download.main h (prog :: "cdem" :: more) fs)
         = [Download.LDownloading; Download.LError Download.OSError].
Proof.
  intros Hd.
  change (Download.wp (Download.main h (prog :: "cdem" :: more))
            (λ res fs' out,
               fs' = fs ∧ res = inr tt
               ∧ ∀ r, Download.requests_get h Download.cdem_query = Some r →
                      Download.ok r = true →
                      out = [Download.LDownloading;
                             Download.LError Download.OSError]) fs).
  unfold Download.main.
  assert (Download.wants_cdem (prog :: "cdem" :: more) = true) as ->
    by reflexivity.
  dl_step. eapply dl_wand; [apply download_cdem_cases|].
  intros res fs' out H. rewrite Hd in H. cbn [andb] in H.
  destruct (Download.requests_get h _) as [r|];
    [destruct (Download.ok r) eqn:Eok|];
    destruct H as (-> & -> & ->); dl_step; rewrite app_nil_r;
    (split; [done|split; [done|]]); intros ? [= <-] ?; congruence.
Qed.

(** X22. A download that breaks off leaves the truncated file in place:
    when the connection is lost after some chunks, the downloader returns
    nothing, but [cdem_squamish.tif] exists, holds the bytes that arrived,
    and is listed by a scan of the raw-data directory for [*.tif]. *)
Theorem interrupted_download_leaves_a_partial_file h fs r :
  Download.requests_get h Download.cdem_query = Some r →
  Download.ok r = true →
  Download.interrupted r = true →
  is_dir fs (Download.OUTPUT_DIR h) = true →
  is_dir fs (Download.cdem_file h) = false →
  Download.result (Download.download_cdem_fallback h fs) = inr None
  ∧ Download.disk (Download.download_cdem_fallback h fs)
      !! Download.cdem_file h
    = Some (File (Blob (Download.received r)))
  ∧ Download.cdem_file h
    ∈ glob (Download.disk (Download.download_cdem_fallback h fs))
        (Download.OUTPUT_DIR h) "*.tif".
Proof.
  intros Hget Hok Hcut Hd Hf.
  pose proof (download_cdem_cases h fs) as H. unfold Download.wp in H.
  rewrite Hget, Hok, Hd, Hf, Hcut in H. cbn [andb negb] in H.
  destruct H as (Hdisk & Hres & _). rewrite Hdisk, lookup_insert_eq.
  split; [done|split; [done|]].
  apply elem_of_glob. split; [rewrite lookup_insert_eq; eauto|].
  unfold Download.cdem_file. split; [|by rewrite name_joinpath].
  unfold is_child, joinpath. apply bool_decide_eq_true_2.
  split; [by apply prefix_app_r|]. rewrite length_app. cbn. lia.
Qed.


(** X24. When the catalogue answers with a well-formed search result that
    is not empty, the downloader lists exactly the datasets of the reply,
    in order: after the count, the title and the id of each, with
    [Unknown] and [N/A] standing in for a missing one. *)
Theorem catalogue_datasets_are_listed h fs r top inner datasets :
  Download.requests_get h Download.api_query = Some r →
  Download.ok r = true →
  Download.json r = Some (Download.VDict top) →
  Download.assoc "result" top = Some (Download.VDict inner) →
  Download.assoc "results" inner
  = Some (Download.VList (map Download.VDict datasets)) →
  datasets ≠ [] →
  Download.printed (Download.check_bc_opendata h fs)
  = Download.LChecking :: Download.LFound (length datasets)
    :: flat_map
         (λ d, [Download.LTitle
                  (default (Download.VStr "Unknown") (Download.assoc "title" d));
                Download.LId
                  (default (Download.VStr "N/A") (Download.assoc "id" d))])
         datasets.
Proof.
  intros Hget Hok Hjson Htop Hinner Hne.
  assert (Hloop : ∀ ds fs0,
             Download.wp (Download.print_datasets (map Download.VDict ds))
               (λ res _ out,
                  res = inr tt
                  ∧ out = flat_map
                      (λ d, [Download.LTitle
                               (default (Download.VStr "Unknown")
                                  (Download.assoc "title" d));
                             Download.LId
                               (default (Download.VStr "N/A")
                                  (Download.assoc "id" d))]) ds) fs0).
  { induction ds as [|d ds IH]; intros fs0; [done|].
    cbn [map Download.print_datasets flat_map].
    repeat dl_step. eapply dl_wand; [apply IH|].
    by intros res fs' out [-> ->]. }
  change (Download.wp (Download.check_bc_opendata h)
            (λ _ _ out,
               out = Download.LChecking :: Download.LFound (length datasets)
                     :: flat_map
                          (λ d, [Download.LTitle
                                   (default (Download.VStr "Unknown")
                                      (Download.assoc "title" d));
                                 Download.LId
                                   (default (Download.VStr "N/A")
                                      (Download.assoc "id" d))]) datasets) fs).
  unfold Download.check_bc_opendata.
  repeat dl_step. rewrite Hget, Hok.
  repeat dl_step. rewrite Hjson.
  repeat dl_step. rewrite Htop. cbn [from_option id].
  repeat dl_step. rewrite Hinner. cbn [from_option id].
  destruct datasets as [|d ds]; [done|].
  cbn [map Download.truthy Download.len Download.iter].
  repeat dl_step.
  change (Download.VDict d :: map Download.VDict ds)
    with (map Download.VDict (d :: ds)).
  eapply dl_wand; [apply Hloop|].
  intros res fs' out [-> ->]. cbn [length app]. by rewrite length_map.
Qed.

Lemma cdem_mode_never_creates_the_directory_witness :
  Download.disk (Download.main (web false) ["download_bc_lidar.py"; "cdem"]
                   fs_fresh_checkout)
  = fs_fresh_checkout.
Proof.
  refine (proj1 (cdem_mode_never_creates_the_directory (web false)
                   "download_bc_lidar.py" [] fs_fresh_checkout _)).
  vm_compute. reflexivity.
Defined.

Lemma interrupted_download_leaves_a_partial_file_witness :
  Download.result (Download.download_cdem_fallback (web true) Demo.fs_one_tif)
  = inr None.
Proof.
  refine (proj1 (interrupted_download_leaves_a_partial_file (web true)
                   Demo.fs_one_tif (raster_reply true) _ _ _ _ _));
    vm_compute; reflexivity.
Defined.


Lemma catalogue_datasets_are_listed_witness :
  Download.printed (Download.check_bc_opendata (web false) fs_fresh_checkout)
  = [Download.LChecking; Download.LFound 2;
     Download.LTitle (Download.VStr "LidarBC DEM");
     Download.LId (Download.VStr "a1");
     Download.LTitle (Download.VStr "Unknown");
     Download.LId (Download.VStr "b2")].
Proof.
  refine (catalogue_datasets_are_listed (web false) fs_fresh_checkout
            catalogue_reply _ _
            [[("id", Download.VStr "a1"); ("title", Download.VStr "LidarBC DEM")];
             [("id", Download.VStr "b2")]] _ _ _ _ _ _);
    try reflexivity; done.
Defined.
